(** * PressurePad: the swing-detection sketch (src/arduino.cpp)

    A shallow embedding of the firmware's globals, its BLE callbacks
    ([onConnect], [onDisconnect], [onWrite]), the scheduler tick [loop] and
    the helpers [recordData], [sendData] and [resetRecording].

    Data as the sketch has it on the ESP32:
    - [unsigned long] and [int] are 32 bits wide and are carried as [Z] with
      the wrap-around written out ([u32]);
    - [float] is IEEE binary32 and [double] is binary64, both taken from the
      standard library's [SpecFloat] (round to nearest even);
    - Arduino [String] and C strings are [string]; a NUL character inside a
      buffer ends it for the C string functions;
    - [std::vector<float>] is [list], [push_back] appends at the end.

    Time is a simulated clock: [millis] reads it and [delay] is the only
    thing that advances it inside the sketch; the environment advances it
    between callbacks with [Elapse]. *)

From Stdlib Require Import ZArith List String Ascii Bool Lia SpecFloat.
From Stdlib Require Import DecimalString DecimalPos.
Import ListNotations.
Local Open Scope string_scope.
Local Open Scope Z_scope.

(** ** Machine integers *)

Definition UINT32_MOD : Z := 2 ^ 32.
Definition INT_MAX : Z := 2147483647.
Definition INT_MIN : Z := -2147483648.

(** Arithmetic on [unsigned long] is modulo 2^32. *)
Definition u32 (z : Z) : Z := z mod UINT32_MOD.

(** ** Floating point: binary32 and binary64 *)

Module F32.
Definition prec : Z := 24.
Definition emax : Z := 128.
Definition t := spec_float.

(** Conversion of an integer ([int] or [unsigned long]) to [float]. *)
Definition of_Z (z : Z) : t := binary_normalize prec emax z 0 false.
Definition mul (x y : t) : t := SFmul prec emax x y.
Definition add (x y : t) : t := SFadd prec emax x y.
(** [gt x y] is the C comparison [x > y] (false on NaN). *)
Definition gt (x y : t) : bool := SFltb y x.

(** Conversion of a [float] to [unsigned long]: the fraction is discarded;
    the C standard leaves the result undefined when the truncated value
    does not fit, which is [None] here. *)
Definition to_u32 (x : t) : option Z :=
  match x with
  | S754_zero _ => Some 0
  | S754_finite s m e =>
      let v := if 0 <=? e then Z.shiftl (Zpos m) e
               else Z.shiftr (Zpos m) (- e) in
      if s then (if v =? 0 then Some 0 else None)
      else if v <? UINT32_MOD then Some v else None
  | _ => None
  end.
End F32.

Module F64.
Definition prec : Z := 53.
Definition emax : Z := 1024.
Definition t := spec_float.

Definition of_Z (z : Z) : t := binary_normalize prec emax z 0 false.
Definition div (x y : t) : t := SFdiv prec emax x y.

(** Narrowing of a [double] to [float]. *)
Definition to_f32 (x : t) : F32.t :=
  match x with
  | S754_finite s m e => binary_round F32.prec F32.emax s m e
  | _ => x
  end.

(** A decimal literal [n / d] of C, which has type [double]. *)
Definition lit (n d : Z) : t := div (of_Z n) (of_Z d).
End F64.

(** ** Constants of the sketch *)

(** [const float WEIGHT_THRESHOLD = 1000.0;] *)
Definition WEIGHT_THRESHOLD : F32.t := F64.to_f32 (F64.lit 1000 1).
(** [const float SAMPLE_INTERVAL = 0.0125;] *)
Definition SAMPLE_INTERVAL : F32.t := F64.to_f32 (F64.lit 125 10000).
(** [const float frameTime = 0.033;] *)
Definition frameTime : F32.t := F64.to_f32 (F64.lit 33 1000).

(** ** C strings and Arduino Strings *)

Definition NUL : ascii := Ascii.zero.

Definition is_digit (c : ascii) : bool :=
  let n := Z.of_nat (nat_of_ascii c) in (48 <=? n) && (n <=? 57).

Definition digit_val (c : ascii) : Z := Z.of_nat (nat_of_ascii c) - 48.

(** [isspace] in the C locale. *)
Definition is_space (c : ascii) : bool :=
  let n := Z.of_nat (nat_of_ascii c) in (n =? 32) || ((9 <=? n) && (n <=? 13)).

(** [strchr buf c]: the offset of the first [c], looking no further than the
    terminator. *)
Fixpoint strchr (buf : string) (c : ascii) : option nat :=
  match buf with
  | EmptyString => None
  | String a rest =>
      if Ascii.eqb a c then Some O
      else if Ascii.eqb a NUL then None
      else option_map S (strchr rest c)
  end.

(** [*(buf + i) = c]. *)
Fixpoint poke (i : nat) (c : ascii) (buf : string) : string :=
  match buf, i with
  | EmptyString, _ => EmptyString
  | String _ rest, O => String c rest
  | String a rest, S j => String a (poke j c rest)
  end.

(** [buf + i]. *)
Fixpoint offset (i : nat) (buf : string) : string :=
  match i, buf with
  | O, _ => buf
  | S j, EmptyString => EmptyString
  | S j, String _ rest => offset j rest
  end.

Fixpoint skip_space (s : string) : string :=
  match s with
  | String a rest => if is_space a then skip_space rest else s
  | EmptyString => s
  end.

(** The value of the leading run of decimal digits, [acc] being the value
    read so far. *)
Fixpoint digits_acc (acc : Z) (s : string) : Z :=
  match s with
  | String a rest =>
      if is_digit a then digits_acc (10 * acc + digit_val a) rest else acc
  | EmptyString => acc
  end.

Definition clamp_int (z : Z) : Z := Z.max INT_MIN (Z.min INT_MAX z).

(** [atoi], that is [(int) strtol (s, NULL, 10)]: leading white space, an
    optional sign, then digits up to the first character that is not one
    (the terminator at the latest); no digits give 0; a value out of range
    is clamped, as the C library of the ESP32 toolchain does. *)
Definition atoi (s : string) : Z :=
  match skip_space s with
  | String a rest =>
      if Ascii.eqb a "-" then clamp_int (- digits_acc 0 rest)
      else if Ascii.eqb a "+" then clamp_int (digits_acc 0 rest)
      else clamp_int (digits_acc 0 (String a rest))
  | EmptyString => 0
  end.

(** [String(int)]: the decimal numeral. *)
Definition String_of_int (z : Z) : string :=
  NilZero.string_of_int (Z.to_int z).

(** [String::remove(index)]: drops everything from [index] on; an index at
    or past the end leaves the String as it is. *)
Definition String_remove (index : Z) (s : string) : string :=
  if Z.of_nat (String.length s) <=? index then s
  else substring 0 (Z.to_nat index) s.

(** [dataStr.remove(dataStr.length() - 1)], the subtraction being on
    [unsigned int]. *)
Definition remove_last (s : string) : string :=
  String_remove (u32 (Z.of_nat (String.length s) - 1)) s.

(** *** Fixed-point formatting of a [float] *)

Definition pow10 (n : nat) : Z := 10 ^ Z.of_nat n.

(** [scaled_round x n] is [|x| * 10^n] rounded half up to an integer. *)
Definition scaled_round (x : F32.t) (n : nat) : Z :=
  match x with
  | S754_finite _ m e =>
      let p := Zpos m * pow10 n in
      if 0 <=? e then p * 2 ^ e else (2 * p + 2 ^ (- e)) / 2 ^ (1 - e)
  | _ => 0
  end.

Definition digits_of (z : Z) : string :=
  NilZero.string_of_uint (N.to_uint (Z.to_N z)).

Fixpoint zeros (n : nat) : string :=
  match n with O => "" | S k => String "0" (zeros k) end.

Definition pad_left (n : nat) (s : string) : string :=
  (zeros (n - String.length s) ++ s)%string.

(** Modelled from the spec: the formatter behind [String(t, 4)] and
    [String(w, 1)], a constructor of the Arduino core, is missing from the
    sources; section 4.5 asks for fixed decimal precision with the given
    number of decimal places and no scientific notation. The value is
    rounded half up at the last place. *)
Definition String_of_float (x : F32.t) (decimalPlaces : nat) : string :=
  match x with
  | S754_nan => "nan"
  | S754_infinity _ => "inf"
  | _ =>
      let r := scaled_round x decimalPlaces in
      let q := pow10 decimalPlaces in
      ((match x with S754_finite true _ _ => "-" | _ => "" end)
       ++ digits_of (r / q)
       ++ match decimalPlaces with
          | O => ""
          | _ => "." ++ pad_left decimalPlaces (digits_of (r mod q))
          end)%string
  end.

(** ** The globals of the sketch and its environment

    Output on [Serial] and BLE advertising are not modelled. *)

Record Session : Type := mkSession {
  (** [bool deviceConnected] *)
  deviceConnected : bool;
  (** [bool recording] *)
  recording : bool;
  (** [String tempo] *)
  tempo : string;
  (** [int backFrames] *)
  backFrames : Z;
  (** [int downFrames] *)
  downFrames : Z;
  (** [unsigned long countdownStart]; 0 stands for: no countdown *)
  countdownStart : Z;
  (** [std::vector<float> times] *)
  times : list F32.t;
  (** [std::vector<float> leadWeights] *)
  leadWeights : list F32.t;
  (** [std::vector<float> trailWeights] *)
  trailWeights : list F32.t;
  (** [static unsigned long lastTime] of [loop] *)
  lastTime : Z;
  (** what [leadScale.getData()] returns *)
  leadData : F32.t;
  (** what [trailScale.getData()] returns *)
  trailData : F32.t;
  (** what [millis()] returns *)
  clock : Z;
  (** the values pushed with [setValue] and [notify], oldest first, each with the [millis()] at which it left *)
  notified : list (Z * string)
}.

Definition set_deviceConnected (v : bool) (s : Session) : Session :=
  {| deviceConnected := v;
     recording := recording s;
     tempo := tempo s;
     backFrames := backFrames s;
     downFrames := downFrames s;
     countdownStart := countdownStart s;
     times := times s;
     leadWeights := leadWeights s;
     trailWeights := trailWeights s;
     lastTime := lastTime s;
     leadData := leadData s;
     trailData := trailData s;
     clock := clock s;
     notified := notified s |}.

Definition set_recording (v : bool) (s : Session) : Session :=
  {| deviceConnected := deviceConnected s;
     recording := v;
     tempo := tempo s;
     backFrames := backFrames s;
     downFrames := downFrames s;
     countdownStart := countdownStart s;
     times := times s;
     leadWeights := leadWeights s;
     trailWeights := trailWeights s;
     lastTime := lastTime s;
     leadData := leadData s;
     trailData := trailData s;
     clock := clock s;
     notified := notified s |}.

Definition set_tempo (v : string) (s : Session) : Session :=
  {| deviceConnected := deviceConnected s;
     recording := recording s;
     tempo := v;
     backFrames := backFrames s;
     downFrames := downFrames s;
     countdownStart := countdownStart s;
     times := times s;
     leadWeights := leadWeights s;
     trailWeights := trailWeights s;
     lastTime := lastTime s;
     leadData := leadData s;
     trailData := trailData s;
     clock := clock s;
     notified := notified s |}.

Definition set_backFrames (v : Z) (s : Session) : Session :=
  {| deviceConnected := deviceConnected s;
     recording := recording s;
     tempo := tempo s;
     backFrames := v;
     downFrames := downFrames s;
     countdownStart := countdownStart s;
     times := times s;
     leadWeights := leadWeights s;
     trailWeights := trailWeights s;
     lastTime := lastTime s;
     leadData := leadData s;
     trailData := trailData s;
     clock := clock s;
     notified := notified s |}.

Definition set_downFrames (v : Z) (s : Session) : Session :=
  {| deviceConnected := deviceConnected s;
     recording := recording s;
     tempo := tempo s;
     backFrames := backFrames s;
     downFrames := v;
     countdownStart := countdownStart s;
     times := times s;
     leadWeights := leadWeights s;
     trailWeights := trailWeights s;
     lastTime := lastTime s;
     leadData := leadData s;
     trailData := trailData s;
     clock := clock s;
     notified := notified s |}.

Definition set_countdownStart (v : Z) (s : Session) : Session :=
  {| deviceConnected := deviceConnected s;
     recording := recording s;
     tempo := tempo s;
     backFrames := backFrames s;
     downFrames := downFrames s;
     countdownStart := v;
     times := times s;
     leadWeights := leadWeights s;
     trailWeights := trailWeights s;
     lastTime := lastTime s;
     leadData := leadData s;
     trailData := trailData s;
     clock := clock s;
     notified := notified s |}.

Definition set_times (v : list F32.t) (s : Session) : Session :=
  {| deviceConnected := deviceConnected s;
     recording := recording s;
     tempo := tempo s;
     backFrames := backFrames s;
     downFrames := downFrames s;
     countdownStart := countdownStart s;
     times := v;
     leadWeights := leadWeights s;
     trailWeights := trailWeights s;
     lastTime := lastTime s;
     leadData := leadData s;
     trailData := trailData s;
     clock := clock s;
     notified := notified s |}.

Definition set_leadWeights (v : list F32.t) (s : Session) : Session :=
  {| deviceConnected := deviceConnected s;
     recording := recording s;
     tempo := tempo s;
     backFrames := backFrames s;
     downFrames := downFrames s;
     countdownStart := countdownStart s;
     times := times s;
     leadWeights := v;
     trailWeights := trailWeights s;
     lastTime := lastTime s;
     leadData := leadData s;
     trailData := trailData s;
     clock := clock s;
     notified := notified s |}.

Definition set_trailWeights (v : list F32.t) (s : Session) : Session :=
  {| deviceConnected := deviceConnected s;
     recording := recording s;
     tempo := tempo s;
     backFrames := backFrames s;
     downFrames := downFrames s;
     countdownStart := countdownStart s;
     times := times s;
     leadWeights := leadWeights s;
     trailWeights := v;
     lastTime := lastTime s;
     leadData := leadData s;
     trailData := trailData s;
     clock := clock s;
     notified := notified s |}.

Definition set_lastTime (v : Z) (s : Session) : Session :=
  {| deviceConnected := deviceConnected s;
     recording := recording s;
     tempo := tempo s;
     backFrames := backFrames s;
     downFrames := downFrames s;
     countdownStart := countdownStart s;
     times := times s;
     leadWeights := leadWeights s;
     trailWeights := trailWeights s;
     lastTime := v;
     leadData := leadData s;
     trailData := trailData s;
     clock := clock s;
     notified := notified s |}.

Definition set_leadData (v : F32.t) (s : Session) : Session :=
  {| deviceConnected := deviceConnected s;
     recording := recording s;
     tempo := tempo s;
     backFrames := backFrames s;
     downFrames := downFrames s;
     countdownStart := countdownStart s;
     times := times s;
     leadWeights := leadWeights s;
     trailWeights := trailWeights s;
     lastTime := lastTime s;
     leadData := v;
     trailData := trailData s;
     clock := clock s;
     notified := notified s |}.

Definition set_trailData (v : F32.t) (s : Session) : Session :=
  {| deviceConnected := deviceConnected s;
     recording := recording s;
     tempo := tempo s;
     backFrames := backFrames s;
     downFrames := downFrames s;
     countdownStart := countdownStart s;
     times := times s;
     leadWeights := leadWeights s;
     trailWeights := trailWeights s;
     lastTime := lastTime s;
     leadData := leadData s;
     trailData := v;
     clock := clock s;
     notified := notified s |}.

Definition set_clock (v : Z) (s : Session) : Session :=
  {| deviceConnected := deviceConnected s;
     recording := recording s;
     tempo := tempo s;
     backFrames := backFrames s;
     downFrames := downFrames s;
     countdownStart := countdownStart s;
     times := times s;
     leadWeights := leadWeights s;
     trailWeights := trailWeights s;
     lastTime := lastTime s;
     leadData := leadData s;
     trailData := trailData s;
     clock := v;
     notified := notified s |}.

Definition set_notified (v : list (Z * string)) (s : Session) : Session :=
  {| deviceConnected := deviceConnected s;
     recording := recording s;
     tempo := tempo s;
     backFrames := backFrames s;
     downFrames := downFrames s;
     countdownStart := countdownStart s;
     times := times s;
     leadWeights := leadWeights s;
     trailWeights := trailWeights s;
     lastTime := lastTime s;
     leadData := leadData s;
     trailData := trailData s;
     clock := clock s;
     notified := v |}.

(** ** Clock and notification channel *)

Definition millis (s : Session) : Z := clock s.

Definition delay (ms : Z) (s : Session) : Session :=
  set_clock (u32 (clock s + ms)) s.

(** [pCharacteristic->setValue(v); pCharacteristic->notify();] *)
Definition notify (v : string) (s : Session) : Session :=
  set_notified (notified s ++ [(millis s, v)]) s.

(** ** Connection callbacks (lines 37-52) *)

Definition onConnect (s : Session) : Session := set_deviceConnected true s.

Definition onDisconnect (s : Session) : Session :=
  let s := set_deviceConnected false s in
  let s := set_recording false s in
  let s := set_times [] s in
  let s := set_leadWeights [] s in
  set_trailWeights [] s.

(** ** Command ingestion (lines 54-80)

    Line 57 keeps [c_str()] of the [std::string] that [getValue()] returns
    by value: the temporary is destroyed at the end of that line, and lines
    58 to 68 read and write through a pointer into storage that is no
    longer owned. A write therefore reaches the callback as two things:
    the bytes the peer [written], and the bytes the callback [found] where
    [rxData] points. Nothing in the sketch makes them the same. *)

Record Delivery : Type := mkDelivery {
  written : string;
  found : string
}.

(** The storage still holds what was written. *)
Definition intact (d : Delivery) : Prop := found d = written d.

(** A write whose bytes the callback finds as they were written. *)
Definition delivered (raw : string) : Delivery := mkDelivery raw raw.

(** The callback cuts the buffer at the first [/] by writing a terminator
    over it, reads both halves with [atoi] and puts the [/] back. *)
Definition onWrite (d : Delivery) (s : Session) : Session :=
  let rxData := found d in
  match rxData with
  | EmptyString => s
  | String c _ =>
      if Ascii.eqb c NUL then s
      else
        match strchr rxData "/" with
        | Some slashPos =>
            let buf := poke slashPos NUL rxData in
            let s := set_backFrames (atoi buf) s in
            let s := set_downFrames (atoi (offset (S slashPos) buf)) s in
            set_tempo (String_of_int (backFrames s) ++ "/"
                       ++ String_of_int (downFrames s))%string s
        | None => s
        end
  end.

(** ** Recorder (lines 202-209 and 239-245) *)

(** [(millis() - countdownStart - 4000) / 1000.0], narrowed to [float]. *)
Definition relativeTime (s : Session) : F32.t :=
  F64.to_f32
    (F64.div (F64.of_Z (u32 (u32 (millis s - countdownStart s) - 4000)))
             (F64.lit 1000 1)).

Definition recordData (s : Session) : Session :=
  if recording s then
    let s := set_times (times s ++ [relativeTime s]) s in
    let s := set_leadWeights (leadWeights s ++ [leadData s]) s in
    set_trailWeights (trailWeights s ++ [trailData s]) s
  else s.

Definition resetRecording (s : Session) : Session :=
  let s := set_countdownStart 0 s in
  let s := set_recording false s in
  let s := set_times [] s in
  let s := set_leadWeights [] s in
  set_trailWeights [] s.

(** ** Serializer (lines 211-237) *)

Section Serializer.
(** The number formatter, [String(float, decimalPlaces)]. *)
Variable fmt : F32.t -> nat -> string.

(** [for (float x : xs) dataStr += String(x, places) + ",";] *)
Definition appendAll (places : nat) (xs : list F32.t) (dataStr : string)
  : string :=
  fold_left (fun acc x => (acc ++ (fmt x places ++ ","))%string) xs dataStr.

Definition renderWith (ts ls rs : list F32.t) : string :=
  let dataStr := "(" in
  let dataStr := appendAll 4 ts dataStr in
  let dataStr := remove_last dataStr in
  let dataStr := (dataStr ++ ");(")%string in
  let dataStr := appendAll 1 ls dataStr in
  let dataStr := remove_last dataStr in
  let dataStr := (dataStr ++ ");(")%string in
  let dataStr := appendAll 4 ts dataStr in
  let dataStr := remove_last dataStr in
  let dataStr := (dataStr ++ ");(")%string in
  let dataStr := appendAll 1 rs dataStr in
  let dataStr := remove_last dataStr in
  (dataStr ++ ")")%string.
End Serializer.

Definition render : list F32.t -> list F32.t -> list F32.t -> string :=
  renderWith String_of_float.

Definition sendData (s : Session) : Session :=
  notify (render (times s) (leadWeights s) (trailWeights s)) s.

(** ** The tick (lines 127-200) *)

(** One reading of the two HX711 converters: whether [update()] reports a
    new conversion, and the value [getData()] gives from then on. *)
Record Sample : Type := mkSample {
  leadReady : bool;
  leadNew : F32.t;
  trailReady : bool;
  trailNew : F32.t
}.

(** [leadScale.update() && trailScale.update()]: the trail converter is
    only polled when the lead one had data. *)
Definition updateScales (x : Sample) (s : Session) : bool * Session :=
  if leadReady x then
    let s := set_leadData (leadNew x) s in
    if trailReady x then (true, set_trailData (trailNew x) s) else (false, s)
  else (false, s).

Definition bind {A B : Type} (m : option A) (k : A -> option B) : option B :=
  match m with Some a => k a | None => None end.

Notation "x <- m ;; k" := (bind m (fun x => k))
  (at level 61, m at next level, right associativity).

(** [backFrames * frameTime * 1000], as [float]. *)
Definition frameDelay (frames : Z) : F32.t :=
  F32.mul (F32.mul (F32.of_Z frames) frameTime) (F32.of_Z 1000).

(** [while (millis() < recordEnd) { recordData(); delay(SAMPLE_INTERVAL * 1000); }]
    The loop need not end (the clock wraps), hence the fuel: [None] when it
    runs out. *)
Fixpoint recordWhile (fuel : nat) (recordEnd : Z) (s : Session)
  : option Session :=
  if millis s <? recordEnd then
    match fuel with
    | O => None
    | S fuel' =>
        d <- F32.to_u32 (F32.mul SAMPLE_INTERVAL (F32.of_Z 1000)) ;;
        recordWhile fuel' recordEnd (delay d (recordData s))
    end
  else Some s.

(** Lines 152-182: what the tick does once the countdown has run 5000 ms. *)
Definition startSwing (fuel : nat) (s : Session) : option Session :=
  let s := notify "START_SWING" s in
  let backDelay := frameDelay (backFrames s) in
  let downDelay := frameDelay (downFrames s) in
  let totalRecordTime :=
    F32.add (F32.add backDelay downDelay) (F32.of_Z 1000) in
  let s := set_recording true s in
  recordEnd <- F32.to_u32 (F32.add (F32.of_Z (millis s)) totalRecordTime) ;;
  s <- recordWhile fuel recordEnd s ;;
  d <- F32.to_u32 backDelay ;;
  let s := delay d s in
  let s := notify "TOP_BEEP" s in
  d <- F32.to_u32 downDelay ;;
  let s := delay d s in
  let s := notify "IMPACT_BEEP" s in
  let s := sendData s in
  Some (resetRecording s).

(** [leadWeight > WEIGHT_THRESHOLD && trailWeight > WEIGHT_THRESHOLD] *)
Definition presence (leadWeight trailWeight : F32.t) : bool :=
  F32.gt leadWeight WEIGHT_THRESHOLD && F32.gt trailWeight WEIGHT_THRESHOLD.

(** The body of [loop] up to its closing [delay(10)]. *)
Definition loopBody (fuel : nat) (x : Sample) (s : Session) : option Session :=
  if deviceConnected s then
    let (fresh, s) := updateScales x s in
    if fresh then
      let leadWeight := leadData s in
      let trailWeight := trailData s in
      let currentTime := millis s in
      let s := if 10 <=? u32 (currentTime - lastTime s)
               then set_lastTime currentTime s else s in
      if presence leadWeight trailWeight then
        let s := if countdownStart s =? 0
                 then notify "WEIGHT_DETECTED" (set_countdownStart (millis s) s)
                 else s in
        let elapsed := u32 (millis s - countdownStart s) in
        if 5000 <=? elapsed then startSwing fuel s
        else if (4000 <=? elapsed) && negb (recording s)
             then Some (set_recording true s)
             else Some s
      else
        if negb (countdownStart s =? 0)
        then Some (resetRecording (notify "STEPPED_OFF" s))
        else Some s
    else Some s
  else Some s.

Definition loop (fuel : nat) (x : Sample) (s : Session) : option Session :=
  s <- loopBody fuel x s ;; Some (delay 10 s).

(** ** Runs *)

(** The state [setup] leaves behind, the clock reading [now]. *)
Definition boot (now : Z) : Session :=
  {| deviceConnected := false; recording := false; tempo := "";
     backFrames := 0; downFrames := 0; countdownStart := 0;
     times := []; leadWeights := []; trailWeights := [];
     lastTime := 0; leadData := S754_zero false; trailData := S754_zero false;
     clock := u32 now; notified := [] |}.

(** What can happen to the sketch: the BLE stack calls one of its
    callbacks, the scheduler calls [loop], or time passes. *)
Inductive Action : Type :=
| Connect
| Disconnect
| Write (d : Delivery)
| Tick (fuel : nat) (x : Sample)
| Elapse (ms : Z).

Definition act (a : Action) (s : Session) : option Session :=
  match a with
  | Connect => Some (onConnect s)
  | Disconnect => Some (onDisconnect s)
  | Write d => Some (onWrite d s)
  | Tick fuel x => loop fuel x s
  | Elapse ms => Some (delay ms s)
  end.

Fixpoint run (acts : list Action) (s : Session) : option Session :=
  match acts with
  | [] => Some s
  | a :: rest => s' <- act a s ;; run rest s'
  end.

(** The phases of section 4.4 as the globals encode them between two
    callbacks; the swing sequence runs to its end inside one tick. *)
Inductive SwingPhase : Type := IDLE | WEIGHT_DETECTED | ARMED_RECORDING.

Definition phase (s : Session) : SwingPhase :=
  if countdownStart s =? 0 then IDLE
  else if recording s then ARMED_RECORDING else WEIGHT_DETECTED.

(** The tempo pair the tick reads. *)
Definition tempoConfig (s : Session) : Z * Z := (backFrames s, downFrames s).

(** All three sequences of the series have the same length. *)
Definition aligned (s : Session) : Prop :=
  List.length (times s) = List.length (leadWeights s) /\
  List.length (leadWeights s) = List.length (trailWeights s).

(** A reading with both feet on the pad, and one with the pad empty. *)
Definition f32 (n d : Z) : F32.t := F64.to_f32 (F64.lit n d).
Definition onPad : Sample := mkSample true (f32 1200 1) true (f32 1100 1).
Definition offPad : Sample := mkSample true (f32 0 1) true (f32 0 1).

(** [occurs c s]: the character [c] is somewhere in [s]. *)
Fixpoint occurs (c : ascii) (s : string) : bool :=
  match s with
  | EmptyString => false
  | String a rest => Ascii.eqb a c || occurs c rest
  end.

(** A decimal numeral: one digit or more. *)
Definition numeral (u : Decimal.uint) : string := NilZero.string_of_uint u.
Definition numeral_value (u : Decimal.uint) : Z := Z.of_N (N.of_uint u).

Fixpoint all_digits (s : string) : bool :=
  match s with
  | EmptyString => true
  | String a rest => is_digit a && all_digits rest
  end.

Definition is_numeral (s : string) : bool :=
  negb (String.eqb s "") && all_digits s.

(** The input format of section 4.2, in the spec's words: two decimal
    integers separated by a single [/]; the split is on the first [/]. *)
Definition wellFormedCommand (raw : string) : bool :=
  match strchr raw "/" with
  | Some i => is_numeral (substring 0 i raw) && is_numeral (offset (S i) raw)
  | None => false
  end.

(** A tick that takes a sample with both feet on the pad, and one that
    takes a sample without. *)
Definition stepsOn (x : Sample) : bool :=
  leadReady x && trailReady x && presence (leadNew x) (trailNew x).

Definition stepsOff (x : Sample) : bool :=
  leadReady x && trailReady x && negb (presence (leadNew x) (trailNew x)).

(** The state a run ends in (the start state if it has none). *)
Definition after (acts : list Action) (s : Session) : Session :=
  match run acts s with Some s' => s' | None => s end.

Definition onPadTicks (n : nat) : list Action := repeat (Tick 200 onPad) n.

(** Connected at 4000 ms after power-up, tempo 6/3 received. *)
Definition session6_3 : Session :=
  onWrite (delivered "6/3") (onConnect (boot 4000)).

(** The recorded series: times, lead weights, trail weights. *)
Definition series (s : Session) : list F32.t * list F32.t * list F32.t :=
  (times s, leadWeights s, trailWeights s).

Definition emptySeries : list F32.t * list F32.t * list F32.t := ([], [], []).

(** When the value [v] first went out on the notification channel. *)
Definition sentAt (v : string) (s : Session) : option Z :=
  option_map fst (find (fun e => String.eqb (snd e) v) (notified s)).

(** The wire format of section 4.5, in the spec's words: a parenthesized,
    comma-separated group. *)
Fixpoint commaSeparated (xs : list string) : string :=
  match xs with
  | [] => ""
  | [x] => x
  | x :: rest => (x ++ "," ++ commaSeparated rest)%string
  end.

Definition group (xs : list string) : string :=
  ("(" ++ commaSeparated xs ++ ")")%string.

(** What a callback cannot change unless it says so: everything but the
    clock, the series, the scale readings and the debug timer. *)
Definition control (s : Session)
  : bool * bool * string * Z * Z * Z * list (Z * string) :=
  (deviceConnected s, recording s, tempo s, backFrames s, downFrames s,
   countdownStart s, notified s).

(** The cue strings the tick pushes (lines 146, 153, 171, 177, 191). *)
Definition cueEvents : list string :=
  ["WEIGHT_DETECTED"; "START_SWING"; "TOP_BEEP"; "IMPACT_BEEP"; "STEPPED_OFF"].

(** A value the sketch may push: a cue, or a payload built by [sendData]. *)
Definition inVocabulary (v : string) : Prop :=
  In v cueEvents \/ exists ts ls rs : list F32.t, v = render ts ls rs.

(** A tick on which at least one scale has no new conversion. *)
Definition noSample (x : Sample) : bool := negb (leadReady x && trailReady x).

Definition isConnect (a : Action) : bool :=
  match a with Connect => true | _ => false end.

Definition isWrite (a : Action) : bool :=
  match a with Write _ => true | _ => false end.

(** The number of passes of the recording loop from [now] to [recordEnd],
    12 ms apart. *)
Definition samplesUntil (recordEnd now : Z) : nat :=
  Z.to_nat ((recordEnd - now + 11) / 12).

(** [ms / 1000.0] narrowed to [float]: the seconds [recordData] stores
    for [ms] milliseconds past the 4 s mark. *)
Definition secondsSince4s (ms : Z) : F32.t :=
  F64.to_f32 (F64.div (F64.of_Z ms) (F64.lit 1000 1)).

Fixpoint nuls (n : nat) : string :=
  match n with O => "" | S k => String NUL (nuls k) end.

(** A well-formed command of 27 bytes, too long for the small buffer inside
    a [std::string], and the same 27 bytes with the first eight of them
    zeroed, as storage that has been handed back may read. *)
Definition command27 : string := "0000000000000000000000007/4".
Definition released27 : string := (nuls 8 ++ "00000000000000007/4")%string.

(** The session with tempo 6/3 as a tick finds it at clock reading [c],
    5000 ms into a countdown. *)
Definition atClock (c : Z) : Session :=
  set_countdownStart (c - 5000) (set_clock c session6_3).

(** Floating-point operations and the swing sequence stay folded under
    [cbn] and [simpl]. *)
Arguments presence : simpl never.
Arguments u32 : simpl never.
Arguments frameDelay : simpl never.
Arguments render : simpl never.
Arguments relativeTime : simpl never.
Arguments startSwing : simpl never.
Arguments F32.of_Z : simpl never.
Arguments F32.add : simpl never.
Arguments F32.mul : simpl never.
Arguments F32.to_u32 : simpl never.

(** * Properties *)

(** ** Command parsing *)

Lemma strchr_absent (c : ascii) (s : string) :
  occurs c s = false -> strchr s c = None.
Proof.
  induction s as [|a rest IH]; simpl; [reflexivity|].
  intros H. apply orb_false_elim in H. destruct H as [Ha Hrest].
  rewrite Ha, (IH Hrest). destruct (Ascii.eqb a NUL); reflexivity.
Qed.

Lemma strchr_first (c : ascii) (l r : string) :
  occurs c l = false -> occurs NUL l = false ->
  strchr (l ++ String c r) c = Some (String.length l).
Proof.
  induction l as [|a l IH]; simpl; intros Hc Hn.
  - rewrite Ascii.eqb_refl. reflexivity.
  - apply orb_false_elim in Hc. apply orb_false_elim in Hn.
    destruct Hc as [Hc1 Hc2], Hn as [Hn1 Hn2].
    rewrite Hc1, Hn1, (IH Hc2 Hn2). reflexivity.
Qed.

Lemma poke_at_length (c a : ascii) (l r : string) :
  poke (String.length l) c (l ++ String a r) = (l ++ String c r)%string.
Proof. induction l as [|b l IH]; simpl; [reflexivity|now rewrite IH]. Qed.

Lemma offset_past (a : ascii) (l r : string) :
  offset (S (String.length l)) (l ++ String a r) = r.
Proof.
  induction l as [|b l IH]; [destruct r; reflexivity|].
  simpl in *. exact IH.
Qed.

Lemma digits_acc_terminated (l r : string) :
  forall acc, digits_acc acc (l ++ String NUL r) = digits_acc acc l.
Proof.
  induction l as [|a l IH]; intros acc; simpl; [reflexivity|].
  destruct (is_digit a); [apply IH|reflexivity].
Qed.

(** [atoi] reads no further than the terminator. *)
Lemma atoi_terminated (l r : string) : atoi (l ++ String NUL r) = atoi l.
Proof.
  unfold atoi. induction l as [|a l IH]; [reflexivity|].
  cbn [append skip_space]. destruct (is_space a); [exact IH|].
  destruct (Ascii.eqb a "-"); [now rewrite digits_acc_terminated|].
  destruct (Ascii.eqb a "+"); [now rewrite digits_acc_terminated|].
  change (String a (l ++ String NUL r)) with (String a l ++ String NUL r)%string.
  now rewrite digits_acc_terminated.
Qed.

(** What a write with a [/] does: both counts are overwritten with [atoi]
    of the text on either side of the first [/]. *)
Lemma onWrite_slash (l r : string) (d : Delivery) (s : Session) :
  found d = (l ++ String "/" r)%string ->
  occurs "/" l = false -> occurs NUL l = false ->
  onWrite d s =
  set_tempo (String_of_int (atoi l) ++ "/" ++ String_of_int (atoi r))%string
    (set_downFrames (atoi r) (set_backFrames (atoi l) s)).
Proof.
  intros Ef Hs Hn. unfold onWrite. rewrite Ef. cbv zeta.
  assert (Hfirst : match (l ++ String "/" r)%string with
                   | EmptyString => False
                   | String c _ => Ascii.eqb c NUL = false
                   end).
  { destruct l as [|a l]; simpl; [reflexivity|].
    simpl in Hn. apply orb_false_elim in Hn. apply Hn. }
  destruct (l ++ String "/" r)%string as [|c rest] eqn:E; [contradiction|].
  rewrite Hfirst, <- E, (strchr_first _ _ _ Hs Hn).
  rewrite poke_at_length, offset_past, atoi_terminated. reflexivity.
Qed.

Lemma onWrite_no_slash (d : Delivery) (s : Session) :
  occurs "/" (found d) = false -> onWrite d s = s.
Proof.
  intros H. unfold onWrite. cbv zeta. rewrite (strchr_absent _ _ H).
  destruct (found d) as [|c rest]; [reflexivity|].
  destruct (Ascii.eqb c NUL); reflexivity.
Qed.

(** *** Decimal numerals *)

Lemma digits_acc_numeral_acc (u : Decimal.uint) :
  forall acc : positive,
    digits_acc (Zpos acc) (NilEmpty.string_of_uint u)
    = Zpos (Pos.of_uint_acc u acc).
Proof.
  induction u as [|u IH|u IH|u IH|u IH|u IH|u IH|u IH|u IH|u IH|u IH];
    intros acc; [reflexivity|..];
    cbn [NilEmpty.string_of_uint digits_acc Pos.of_uint_acc];
    change (is_digit _) with true; cbv iota;
    rewrite <- IH; f_equal; unfold digit_val;
    match goal with
    | |- context [Z.of_nat (nat_of_ascii ?c)] =>
        let v := eval vm_compute in (Z.of_nat (nat_of_ascii c)) in
        change (Z.of_nat (nat_of_ascii c)) with v
    end; lia.
Qed.

Lemma digits_acc_numeral (u : Decimal.uint) :
  digits_acc 0 (NilEmpty.string_of_uint u) = Z.of_N (Pos.of_uint u).
Proof.
  induction u as [|u IH|u IH|u IH|u IH|u IH|u IH|u IH|u IH|u IH|u IH];
    [reflexivity|exact IH|..];
    cbn [NilEmpty.string_of_uint digits_acc Pos.of_uint];
    change (is_digit _) with true; cbv iota;
    apply (digits_acc_numeral_acc u).
Qed.

Lemma numeral_nonempty (u : Decimal.uint) :
  exists a rest, numeral u = String a rest /\ is_digit a = true.
Proof.
  destruct u; simpl; eexists; eexists; split; reflexivity.
Qed.

Lemma digits_acc_of_numeral (u : Decimal.uint) :
  digits_acc 0 (numeral u) = numeral_value u.
Proof.
  unfold numeral, numeral_value, N.of_uint.
  destruct u; try apply digits_acc_numeral; reflexivity.
Qed.

Lemma is_digit_not_special (a : ascii) :
  is_digit a = true ->
  is_space a = false /\ Ascii.eqb a "-" = false /\ Ascii.eqb a "+" = false
  /\ Ascii.eqb a "/" = false /\ Ascii.eqb a NUL = false.
Proof.
  unfold is_digit, is_space. intros H.
  apply andb_true_iff in H. destruct H as [H1 H2].
  apply Z.leb_le in H1, H2.
  assert (Hne : forall c : ascii,
             Z.of_nat (nat_of_ascii c) < 48 -> Ascii.eqb a c = false).
  { intros c Hc. apply Ascii.eqb_neq. intros ->. lia. }
  repeat split; try (apply Hne; simpl; lia).
  apply orb_false_iff. split; [apply Z.eqb_neq; lia|].
  apply andb_false_iff. right. apply Z.leb_gt. lia.
Qed.

(** [atoi] on a numeral gives its value, clamped to [int]. *)
Lemma atoi_numeral (u : Decimal.uint) :
  atoi (numeral u) = clamp_int (numeral_value u).
Proof.
  destruct (numeral_nonempty u) as (a & rest & E & Ha).
  rewrite <- digits_acc_of_numeral, E. unfold atoi. cbn [skip_space].
  destruct (is_digit_not_special a Ha) as (-> & -> & -> & _). reflexivity.
Qed.

(** A leading minus sign negates. *)
Lemma atoi_minus_numeral (u : Decimal.uint) :
  atoi (String "-" (numeral u)) = clamp_int (- numeral_value u).
Proof. rewrite <- digits_acc_of_numeral. reflexivity. Qed.

Lemma clamp_int_id (z : Z) : INT_MIN <= z <= INT_MAX -> clamp_int z = z.
Proof. unfold clamp_int, INT_MIN, INT_MAX. lia. Qed.

Lemma numeral_digits_only (u : Decimal.uint) : all_digits (numeral u) = true.
Proof.
  unfold numeral, NilZero.string_of_uint.
  assert (H : all_digits (NilEmpty.string_of_uint u) = true)
    by (induction u; simpl; auto).
  destruct u; auto.
Qed.

Lemma all_digits_occurs (c : ascii) (s : string) :
  is_digit c = false -> all_digits s = true -> occurs c s = false.
Proof.
  intros Hc. induction s as [|a rest IH]; simpl; [reflexivity|].
  intros H. apply andb_true_iff in H. destruct H as [Ha Hrest].
  rewrite (IH Hrest), orb_false_r. apply Ascii.eqb_neq. congruence.
Qed.

(** A side that does not start with a digit, a sign or white space reads
    as 0. *)
Lemma atoi_no_digits (a : ascii) (rest : string) :
  is_digit a = false -> is_space a = false ->
  Ascii.eqb a "-" = false -> Ascii.eqb a "+" = false ->
  atoi (String a rest) = 0.
Proof.
  intros Hd Hs Hm Hp. unfold atoi. cbn [skip_space digits_acc].
  rewrite Hs, Hm, Hp, Hd. reflexivity.
Qed.

(** C4 (amended). For a write whose bytes the callback finds as they were
    written: a command without [/] leaves the session as it is; a command
    with one overwrites both frame counts with [atoi] of the text before and
    after the first [/]: for two decimal numerals B and D that fit an [int]
    the tempo becomes (B, D), and a side that is not a numeral is not
    rejected, [atoi] of it is stored. What the callback does when the
    destroyed temporary no longer holds the written bytes is not part of
    this statement. *)
Theorem onWrite_numerals_or_no_slash :
  (forall (d : Delivery) (b dn : Decimal.uint) (s : Session),
      intact d ->
      written d = (numeral b ++ String "/" (numeral dn))%string ->
      numeral_value b <= INT_MAX -> numeral_value dn <= INT_MAX ->
      tempoConfig (onWrite d s) = (numeral_value b, numeral_value dn))
  /\ (forall (d : Delivery) (s : Session),
         intact d -> occurs "/" (written d) = false -> onWrite d s = s)
  /\ (forall (d : Delivery) (l r : string) (s : Session),
         intact d -> written d = (l ++ String "/" r)%string ->
         occurs "/" l = false -> occurs NUL l = false ->
         tempoConfig (onWrite d s) = (atoi l, atoi r)).
Proof.
  split; [|split].
  - intros d b dn s Hi Hw Hb Hd.
    assert (H0 : forall u, 0 <= numeral_value u)
      by (intros u; apply N2Z.is_nonneg).
    unfold intact in Hi. rewrite <- Hi in Hw.
    rewrite (onWrite_slash _ _ d s Hw).
    + unfold tempoConfig. cbn. rewrite !atoi_numeral, !clamp_int_id;
        [reflexivity| |]; unfold INT_MIN; split; auto;
        eapply Z.le_trans; try apply H0; lia.
    + apply all_digits_occurs; [reflexivity|apply numeral_digits_only].
    + apply all_digits_occurs; [reflexivity|apply numeral_digits_only].
  - intros d s Hi H. apply onWrite_no_slash. rewrite Hi. exact H.
  - intros d l r s Hi Hw Hs Hn. unfold intact in Hi. rewrite <- Hi in Hw.
    rewrite (onWrite_slash l r d s Hw Hs Hn). reflexivity.
Qed.

Lemma onWrite_numerals_or_no_slash_witness :
  (intact (delivered "6/3")
   /\ numeral_value (Decimal.D6 Decimal.Nil) <= INT_MAX
   /\ numeral_value (Decimal.D3 Decimal.Nil) <= INT_MAX
   /\ tempoConfig (onWrite (delivered "6/3") (boot 0)) = (6, 3))
  /\ (intact (delivered "63") /\ occurs "/" "63" = false
      /\ onWrite (delivered "63") (boot 0) = boot 0)
  /\ (intact (delivered "6/x")
      /\ occurs "/" "6" = false /\ occurs NUL "6" = false
      /\ tempoConfig (onWrite (delivered "6/x") (boot 0)) = (6, 0)).
Proof.
  destruct onWrite_numerals_or_no_slash as (Hnum & Hnone & Hany).
  split; [|split].
  - assert (H6 : numeral_value (Decimal.D6 Decimal.Nil) <= INT_MAX)
      by (vm_compute; discriminate).
    assert (H3 : numeral_value (Decimal.D3 Decimal.Nil) <= INT_MAX)
      by (vm_compute; discriminate).
    split; [reflexivity|split; [exact H6|split; [exact H3|]]].
    exact (Hnum (delivered "6/3")
                (Decimal.D6 Decimal.Nil) (Decimal.D3 Decimal.Nil)
                (boot 0) eq_refl eq_refl H6 H3).
  - split; [reflexivity|split; [reflexivity|]].
    exact (Hnone (delivered "63") (boot 0) eq_refl eq_refl).
  - split; [reflexivity|split; [reflexivity|split; [reflexivity|]]].
    exact (Hany (delivered "6/x") "6" "x" (boot 0)
                eq_refl eq_refl eq_refl eq_refl).
Defined.

(** C4 as stated fails: a command with a [/] and a side that is not a
    number is malformed, yet it overwrites the tempo, also when the
    callback finds the bytes as they were written. *)
Lemma malformed_side_overwrites_tempo :
  let s := onWrite (delivered "6/3") (onConnect (boot 4000)) in
  wellFormedCommand "abc/3" = false
  /\ wellFormedCommand "7/x" = false
  /\ intact (delivered "abc/3") /\ intact (delivered "7/x")
  /\ tempoConfig s = (6, 3)
  /\ tempoConfig (onWrite (delivered "abc/3") s) = (0, 3)
  /\ tempoConfig (onWrite (delivered "7/x") s) = (7, 0)
  /\ tempoConfig (onWrite (delivered "abc/3") s) <> tempoConfig s
  /\ tempoConfig (onWrite (delivered "7/x") s) <> tempoConfig s.
Proof. vm_compute. repeat split; discriminate. Qed.

(** ** Serializer *)

Lemma u32_small_nat (n : nat) :
  Z.of_nat n < UINT32_MOD -> u32 (Z.of_nat n) = Z.of_nat n.
Proof. intros H. apply Z.mod_small. lia. Qed.

Lemma append_assoc (a b c : string) :
  ((a ++ b) ++ c = a ++ (b ++ c))%string.
Proof. induction a as [|x a IH]; cbn; [reflexivity|now rewrite IH]. Qed.

Lemma length_append (a b : string) :
  String.length (a ++ b) = (String.length a + String.length b)%nat.
Proof. induction a as [|x a IH]; cbn; [reflexivity|now rewrite IH]. Qed.

Lemma substring_prefix (a b : string) :
  substring 0 (String.length a) (a ++ b) = a.
Proof.
  induction a as [|x a IH]; cbn; [destruct b; reflexivity|now rewrite IH].
Qed.

(** [remove] of the last character takes a trailing comma away. *)
Lemma remove_last_comma (a : string) :
  Z.of_nat (String.length a) < UINT32_MOD - 1 ->
  remove_last (a ++ ",") = a.
Proof.
  intros H. unfold remove_last, String_remove.
  rewrite length_append. cbn [String.length].
  replace (Z.of_nat (String.length a + 1) - 1)
    with (Z.of_nat (String.length a)) by lia.
  rewrite u32_small_nat by lia.
  replace (Z.of_nat (String.length a + 1) <=? Z.of_nat (String.length a))
    with false by (symmetry; apply Z.leb_gt; lia).
  rewrite Nat2Z.id. apply substring_prefix.
Qed.

Lemma appendAll_nonempty (fmt : F32.t -> nat -> string) (places : nat)
      (xs : list F32.t) :
  xs <> [] ->
  forall dataStr : string,
    appendAll fmt places xs dataStr
    = ((dataStr ++ commaSeparated (map (fun x => fmt x places) xs))
       ++ ",")%string.
Proof.
  unfold appendAll.
  induction xs as [|x xs IH]; intros Hne dataStr; [contradiction|].
  destruct xs as [|y xs].
  - cbn. now rewrite append_assoc.
  - cbn [fold_left]. cbn [fold_left] in IH. rewrite IH by discriminate.
    cbn [map commaSeparated]. now rewrite !append_assoc.
Qed.

(** X1. What [sendData] builds when every sequence has an element: the four
    groups of section 4.5, joined by [;]. The payload is taken short of
    2^32 characters, the range of [unsigned int]. *)
Lemma renderWith_groups (fmt : F32.t -> nat -> string)
      (ts ls rs : list F32.t) :
  ts <> [] -> ls <> [] -> rs <> [] ->
  let expected :=
    (group (map (fun t => fmt t 4%nat) ts) ++ ";"
     ++ group (map (fun w => fmt w 1%nat) ls) ++ ";"
     ++ group (map (fun t => fmt t 4%nat) ts) ++ ";"
     ++ group (map (fun w => fmt w 1%nat) rs))%string in
  Z.of_nat (String.length expected) < UINT32_MOD - 1 ->
  renderWith fmt ts ls rs = expected.
Proof.
  intros Ht Hl Hr expected Hlen. subst expected. unfold renderWith, group.
  unfold group in Hlen. rewrite !length_append in Hlen.
  cbn [String.length] in Hlen.
  set (c1 := commaSeparated (map (fun t => fmt t 4%nat) ts)) in *.
  set (c2 := commaSeparated (map (fun w => fmt w 1%nat) ls)) in *.
  set (c3 := commaSeparated (map (fun w => fmt w 1%nat) rs)) in *.
  assert (Hcut : forall places xs dataStr,
             xs <> [] ->
             Z.of_nat (String.length dataStr)
             + Z.of_nat (String.length
                           (commaSeparated (map (fun x => fmt x places) xs)))
             < UINT32_MOD - 1 ->
             remove_last (appendAll fmt places xs dataStr)
             = (dataStr
                ++ commaSeparated (map (fun x => fmt x places) xs))%string).
  { intros places xs dataStr Hne Hb.
    rewrite (appendAll_nonempty fmt places xs Hne).
    apply remove_last_comma. rewrite length_append. lia. }
  rewrite (Hcut 4%nat ts "(" Ht) by (fold c1; cbn [String.length]; lia).
  fold c1.
  rewrite (Hcut 1%nat ls _ Hl)
    by (fold c2; rewrite !length_append; cbn [String.length]; lia).
  fold c2.
  rewrite (Hcut 4%nat ts _ Ht)
    by (fold c1; rewrite !length_append; cbn [String.length]; lia).
  fold c1.
  rewrite (Hcut 1%nat rs _ Hr)
    by (fold c3; rewrite !length_append; cbn [String.length]; lia).
  fold c3.
  rewrite !append_assoc. reflexivity.
Qed.

(** C5 (the code fails it). With nothing recorded there is no trailing
    comma, and each [remove] takes the opening parenthesis instead: the
    payload is [);););)], not [();();();()], whatever the formatter. *)
Theorem render_empty_series :
  forall fmt : F32.t -> nat -> string,
    renderWith fmt [] [] [] = ");););)"
    /\ renderWith fmt [] [] [] <> "();();();()".
Proof. intros fmt. split; [reflexivity|discriminate]. Qed.

(** C6. The series of two samples at 0.0125 s and 0.025 s renders as four
    parenthesized groups joined by [;]: times with 4 decimals, lead weights
    with 1, times again, trail weights with 1. *)
Theorem render_two_samples :
  render [f32 125 10000; f32 25 1000]
         [f32 1200 1; f32 12055 10]
         [f32 1100 1; f32 11023 10]
  = "(0.0125,0.0250);(1200.0,1205.5);(0.0125,0.0250);(1100.0,1102.3)".
Proof. vm_compute. reflexivity. Qed.

(** ** Disconnect *)

(** C3 (the code fails it). [onDisconnect] stops the recording and clears
    the three sequences, but it leaves [countdownStart] alone, which
    [resetRecording] zeroes: a countdown that was running is still running
    afterwards and the machine is not back in [IDLE]. *)
Theorem onDisconnect_keeps_countdown :
  forall s : Session,
    times (onDisconnect s) = []
    /\ leadWeights (onDisconnect s) = []
    /\ trailWeights (onDisconnect s) = []
    /\ recording (onDisconnect s) = false
    /\ countdownStart (onDisconnect s) = countdownStart s
    /\ (phase s <> IDLE -> phase (onDisconnect s) = WEIGHT_DETECTED)
    /\ phase (resetRecording s) = IDLE.
Proof.
  intros s. repeat split.
  unfold phase. cbn. destruct (countdownStart s =? 0); congruence.
Qed.

Lemma onDisconnect_keeps_countdown_witness :
  let s := after (Connect :: onPadTicks 401) (boot 4000) in
  phase s <> IDLE /\ phase (onDisconnect s) = WEIGHT_DETECTED.
Proof.
  intros s.
  assert (H : phase s <> IDLE) by (vm_compute; discriminate).
  split; [exact H|].
  exact (proj1 (proj2 (proj2 (proj2 (proj2 (proj2
           (onDisconnect_keeps_countdown s)))))) H).
Defined.

(** The countdown that survived the disconnect is picked up on reconnect:
    six seconds later the first tick with presence goes straight to
    [START_SWING], with no [WEIGHT_DETECTED] for the new session. *)
Example reconnect_resumes_stale_countdown :
  option_map (fun s => firstn 2 (notified s))
    (run [Connect; Tick 200 onPad; Disconnect; Elapse 6000; Connect;
          Tick 200 onPad] (boot 4000))
  = Some [(4000, "WEIGHT_DETECTED"); (10010, "START_SWING")].
Proof. vm_compute. reflexivity. Qed.

(** ** The tick *)

Lemma stepsOff_spec (x : Sample) :
  stepsOff x = true ->
  leadReady x = true /\ trailReady x = true
  /\ presence (leadNew x) (trailNew x) = false.
Proof.
  unfold stepsOff. intros H.
  apply andb_true_iff in H. destruct H as [H H3].
  apply andb_true_iff in H. destruct H as [H1 H2].
  apply negb_true_iff in H3. auto.
Qed.

(** A sample without presence while a countdown runs. *)
Lemma loopBody_stepOff (fuel : nat) (x : Sample) (s : Session) :
  deviceConnected s = true -> stepsOff x = true -> countdownStart s <> 0 ->
  exists s',
    loopBody fuel x s = Some s'
    /\ notified s' = (notified s ++ [(millis s, "STEPPED_OFF")])%list
    /\ times s' = [] /\ leadWeights s' = [] /\ trailWeights s' = []
    /\ countdownStart s' = 0 /\ recording s' = false
    /\ deviceConnected s' = true /\ clock s' = clock s.
Proof.
  intros Hc Hx Hcd. destruct (stepsOff_spec x Hx) as (Hl & Ht & Hp).
  apply Z.eqb_neq in Hcd.
  unfold loopBody, updateScales. rewrite Hc, Hl, Ht. cbn.
  rewrite Hp.
  destruct (10 <=? u32 (clock s - lastTime s)); cbn; rewrite Hcd; cbn;
    eexists; repeat split; exact Hc.
Qed.

(** A tick without presence while no countdown runs changes nothing the
    remote side or the recorder can see. *)
Lemma loopBody_idle (fuel : nat) (x : Sample) (s : Session) :
  stepsOn x = false -> countdownStart s = 0 ->
  exists s',
    loopBody fuel x s = Some s'
    /\ notified s' = notified s
    /\ times s' = times s /\ leadWeights s' = leadWeights s
    /\ trailWeights s' = trailWeights s
    /\ countdownStart s' = 0 /\ recording s' = recording s
    /\ deviceConnected s' = deviceConnected s /\ clock s' = clock s.
Proof.
  intros Hx Hcd. unfold stepsOn in Hx. unfold loopBody, updateScales.
  destruct (deviceConnected s) eqn:Hc; [|eexists; repeat split; auto].
  destruct (leadReady x); [|eexists; repeat split; auto].
  destruct (trailReady x); [|eexists; repeat split; auto].
  cbn in Hx |- *. rewrite Hx.
  destruct (10 <=? u32 (clock s - lastTime s)); cbn; rewrite Hcd; cbn;
    eexists; repeat split; auto.
Qed.

Lemma stepsOn_spec (x : Sample) :
  stepsOn x = true ->
  leadReady x = true /\ trailReady x = true
  /\ presence (leadNew x) (trailNew x) = true.
Proof.
  unfold stepsOn. intros H.
  apply andb_true_iff in H. destruct H as [H H3].
  apply andb_true_iff in H. destruct H as [H1 H2]. auto.
Qed.

(** A sample with presence while the countdown has not reached 5000 ms:
    the tick at most raises the [recording] flag. *)
Lemma loopBody_counting (fuel : nat) (x : Sample) (s : Session) :
  deviceConnected s = true -> stepsOn x = true -> countdownStart s <> 0 ->
  u32 (millis s - countdownStart s) < 5000 ->
  exists s',
    loopBody fuel x s = Some s'
    /\ series s' = series s
    /\ notified s' = notified s
    /\ recording s'
       = (recording s || (4000 <=? u32 (millis s - countdownStart s)))%bool
    /\ countdownStart s' = countdownStart s
    /\ clock s' = clock s
    /\ deviceConnected s' = true.
Proof.
  intros Hc Hx Hcd He. destruct (stepsOn_spec x Hx) as (Hl & Ht & Hp).
  apply Z.eqb_neq in Hcd. apply Z.leb_gt in He. unfold millis in *.
  unfold loopBody, updateScales. rewrite Hc, Hl, Ht. cbn. rewrite Hp.
  destruct (10 <=? u32 (clock s - lastTime s)); cbn; rewrite Hcd; cbn;
    rewrite He;
    destruct (4000 <=? u32 (clock s - countdownStart s));
    destruct (recording s) eqn:Hr; cbn;
    eexists; repeat split; auto.
Qed.

(** A sample with presence once the countdown has run 5000 ms: the tick
    goes into the swing sequence, the recorder being as the tick found it. *)
Lemma loopBody_trigger (fuel : nat) (x : Sample) (s : Session) :
  deviceConnected s = true -> stepsOn x = true -> countdownStart s <> 0 ->
  5000 <= u32 (millis s - countdownStart s) ->
  exists s1,
    loopBody fuel x s = startSwing fuel s1
    /\ series s1 = series s
    /\ notified s1 = notified s
    /\ clock s1 = clock s
    /\ backFrames s1 = backFrames s /\ downFrames s1 = downFrames s
    /\ countdownStart s1 = countdownStart s.
Proof.
  intros Hc Hx Hcd He. destruct (stepsOn_spec x Hx) as (Hl & Ht & Hp).
  apply Z.eqb_neq in Hcd. apply Z.leb_le in He. unfold millis in *.
  unfold loopBody, updateScales. rewrite Hc, Hl, Ht. cbn. rewrite Hp.
  destruct (10 <=? u32 (clock s - lastTime s)); cbn; rewrite Hcd; cbn;
    rewrite He; eexists; repeat split.
Qed.

(** The first sample with presence starts the countdown. *)
Lemma loopBody_detect (fuel : nat) (x : Sample) (s : Session) :
  deviceConnected s = true -> stepsOn x = true ->
  countdownStart s = 0 -> clock s <> 0 ->
  exists s',
    loopBody fuel x s = Some s'
    /\ notified s' = (notified s ++ [(clock s, "WEIGHT_DETECTED")])%list
    /\ series s' = series s
    /\ countdownStart s' = clock s
    /\ clock s' = clock s
    /\ deviceConnected s' = true.
Proof.
  intros Hc Hx Hcd H0. destruct (stepsOn_spec x Hx) as (Hl & Ht & Hp).
  apply Z.eqb_eq in Hcd.
  unfold loopBody, updateScales. rewrite Hc, Hl, Ht. cbn. rewrite Hp.
  destruct (10 <=? u32 (clock s - lastTime s)); cbn; rewrite Hcd; cbn;
    unfold millis; cbn; rewrite Z.sub_diag; change (u32 0) with 0; cbn;
    eexists; repeat split; auto.
Qed.

(** The first sample with presence, whatever the clock reads. *)
Lemma loopBody_first_presence (fuel : nat) (x : Sample) (s : Session) :
  deviceConnected s = true -> stepsOn x = true -> countdownStart s = 0 ->
  exists s',
    loopBody fuel x s = Some s'
    /\ notified s' = (notified s ++ [(clock s, "WEIGHT_DETECTED")])%list
    /\ series s' = series s
    /\ countdownStart s' = clock s
    /\ clock s' = clock s
    /\ deviceConnected s' = true
    /\ recording s' = recording s.
Proof.
  intros Hc Hx Hcd. destruct (stepsOn_spec x Hx) as (Hl & Ht & Hp).
  apply Z.eqb_eq in Hcd.
  unfold loopBody, updateScales. rewrite Hc, Hl, Ht. cbn. rewrite Hp.
  destruct (10 <=? u32 (clock s - lastTime s)); cbn; rewrite Hcd; cbn;
    unfold millis; cbn; rewrite Z.sub_diag; change (u32 0) with 0; cbn;
    eexists; repeat split; auto.
Qed.

Lemma u32_advance (c cs d : Z) : u32 (u32 (c + d) - cs) = u32 (u32 (c - cs) + d).
Proof.
  unfold u32. rewrite Zminus_mod_idemp_l, Zplus_mod_idemp_l. f_equal. lia.
Qed.

Lemma u32_u32_add (a b : Z) : u32 (u32 a + b) = u32 (a + b).
Proof. unfold u32. apply Zplus_mod_idemp_l. Qed.

Lemma u32_small (z : Z) : 0 <= z < UINT32_MOD -> u32 z = z.
Proof. apply Z.mod_small. Qed.

Lemma run_app (a b : list Action) :
  forall s : Session, run (a ++ b) s = bind (run a s) (run b).
Proof.
  induction a as [|x a IH]; intros s; cbn [app run]; [reflexivity|].
  destruct (act x s) as [s1|]; cbn [bind]; [apply IH|reflexivity].
Qed.

Lemma u32_idem (z : Z) : u32 (u32 z) = u32 z.
Proof. unfold u32. apply Zmod_mod. Qed.

(** Ticks with presence, one every 10 ms, while the countdown stays short
    of 5000 ms: nothing is sent and nothing is recorded. *)
Lemma counting_run (fuel : nat) (xs : list Sample) :
  forall s : Session,
    Forall (fun x => stepsOn x = true) xs ->
    deviceConnected s = true -> countdownStart s <> 0 ->
    u32 (clock s) = clock s ->
    u32 (millis s - countdownStart s) + 10 * Z.of_nat (List.length xs)
    <= 5000 ->
    exists s',
      run (map (Tick fuel) xs) s = Some s'
      /\ notified s' = notified s
      /\ series s' = series s
      /\ countdownStart s' = countdownStart s
      /\ deviceConnected s' = true
      /\ clock s' = u32 (clock s + 10 * Z.of_nat (List.length xs)).
Proof.
  induction xs as [|x xs IH]; intros s Hall Hc Hcd Hclk He.
  - exists s. cbn. rewrite Z.add_0_r. repeat split; auto.
  - inversion Hall as [|? ? Hx Hrest]; subst.
    assert (Hpos : 0 <= u32 (millis s - countdownStart s))
      by (apply Z.mod_pos_bound; reflexivity).
    cbn [List.length] in He. rewrite Nat2Z.inj_succ in He.
    destruct (loopBody_counting fuel x s Hc Hx Hcd ltac:(lia))
      as (s1 & E & Hs1 & Hn1 & _ & Hcd1 & Hc1 & Hd1).
    assert (He1 : u32 (millis (delay 10 s1) - countdownStart (delay 10 s1))
                  = u32 (millis s - countdownStart s) + 10).
    { unfold millis. cbn. rewrite Hc1, Hcd1, u32_advance.
      apply u32_small. unfold millis, UINT32_MOD in *. lia. }
    destruct (IH (delay 10 s1) Hrest) as (s' & E' & Hn' & Hs' & Hcd' & Hd' & Hc');
      try (cbn; congruence).
    + cbn. apply u32_idem.
    + rewrite He1. lia.
    + exists s'. cbn [map run act]. unfold loop. rewrite E. cbn [bind].
      rewrite E'. split; [reflexivity|].
      split; [rewrite Hn'; exact Hn1|].
      split; [rewrite Hs'; exact Hs1|].
      split; [rewrite Hcd'; exact Hcd1|].
      split; [exact Hd'|].
      rewrite Hc'. cbn [delay clock set_clock]. rewrite Hc1, u32_u32_add.
      f_equal. cbn [List.length]. rewrite Nat2Z.inj_succ. lia.
Qed.

Lemma phase_idle (s : Session) : phase s = IDLE <-> countdownStart s = 0.
Proof.
  unfold phase. destruct (countdownStart s =? 0) eqn:E.
  - apply Z.eqb_eq in E. tauto.
  - apply Z.eqb_neq in E. destruct (recording s); split; congruence.
Qed.

(** While nobody is on the pad and no countdown runs, ticks are silent. *)
Lemma idle_run_silent (fuel : nat) (later : list Sample) :
  forall s : Session,
    countdownStart s = 0 ->
    Forall (fun x => stepsOn x = false) later ->
    exists s',
      run (map (Tick fuel) later) s = Some s'
      /\ notified s' = notified s
      /\ times s' = times s /\ leadWeights s' = leadWeights s
      /\ trailWeights s' = trailWeights s /\ countdownStart s' = 0.
Proof.
  induction later as [|x later IH]; intros s Hcd Hall.
  - exists s. repeat split; auto.
  - inversion Hall as [|? ? Hx Hrest]; subst.
    destruct (loopBody_idle fuel x s Hx Hcd)
      as (s1 & E & Hn & Ht & Hl & Hr & Hcd1 & _).
    destruct (IH (delay 10 s1) Hcd1 Hrest)
      as (s' & E' & Hn' & Ht' & Hl' & Hr' & Hcd').
    exists s'. cbn [map run act]. unfold loop. rewrite E. cbn [bind].
    rewrite E'. repeat split; try congruence.
    + rewrite Hn'. exact Hn.
    + rewrite Ht'. exact Ht.
    + rewrite Hl'. exact Hl.
    + rewrite Hr'. exact Hr.
Qed.

(** A step-off while a countdown runs, and what follows while the pad
    stays empty. *)
Lemma run_stepOff (s : Session) (fuel : nat) (x : Sample)
      (later : list Sample) :
  deviceConnected s = true ->
  countdownStart s <> 0 ->
  stepsOff x = true ->
  Forall (fun x' => stepsOn x' = false) later ->
  exists s',
    run (Tick fuel x :: map (Tick fuel) later) s = Some s'
    /\ notified s' = (notified s ++ [(millis s, "STEPPED_OFF")])%list
    /\ series s' = emptySeries
    /\ phase s' = IDLE.
Proof.
  intros Hc Hcd Hx Hlater.
  destruct (loopBody_stepOff fuel x s Hc Hx Hcd)
    as (s1 & E & Hn & Ht & Hl & Hr & Hcd1 & _).
  destruct (idle_run_silent fuel later (delay 10 s1) Hcd1 Hlater)
    as (s' & E' & Hn' & Ht' & Hl' & Hr' & Hcd').
  exists s'. cbn [run act]. unfold loop. rewrite E. cbn [bind]. rewrite E'.
  split; [reflexivity|]. split; [rewrite Hn'; exact Hn|].
  split; [|apply phase_idle, Hcd'].
  unfold series, emptySeries. rewrite Ht', Hl', Hr'. cbn.
  rewrite Ht, Hl, Hr. reflexivity.
Qed.

Lemma stepsOff_not_stepsOn (x : Sample) :
  stepsOff x = true -> stepsOn x = false.
Proof.
  intros H. destruct (stepsOff_spec x H) as (Hl & Ht & Hp).
  unfold stepsOn. rewrite Hl, Ht, Hp. reflexivity.
Qed.

(** A whole run from [IDLE] whose first presence does not fall on clock
    reading 0: presence on the ticks [pres], the last of them before the
    5000 ms boundary, then a tick without. *)
Lemma run_presence_then_stepOff (s : Session) (fuel : nat)
      (pres : list Sample) (x : Sample) (later : list Sample) :
  deviceConnected s = true ->
  phase s = IDLE -> clock s <> 0 -> u32 (clock s) = clock s ->
  pres <> [] ->
  Forall (fun x' => stepsOn x' = true) pres ->
  10 * (Z.of_nat (List.length pres) - 1) < 5000 ->
  stepsOff x = true ->
  Forall (fun x' => stepsOn x' = false) later ->
  exists s',
    run (map (Tick fuel) (pres ++ x :: later)) s = Some s'
    /\ notified s'
       = (notified s
          ++ [(clock s, "WEIGHT_DETECTED");
              (u32 (clock s + 10 * Z.of_nat (List.length pres)),
               "STEPPED_OFF")])%list
    /\ times s' = [] /\ leadWeights s' = [] /\ trailWeights s' = []
    /\ phase s' = IDLE.
Proof.
  intros Hc Hph H0 Hclk Hne Hpres Hlen Hx Hlater.
  destruct pres as [|x0 pres]; [contradiction|].
  inversion Hpres as [|? ? Hx0 Hrest]; subst.
  apply phase_idle in Hph.
  destruct (loopBody_detect fuel x0 s Hc Hx0 Hph H0)
    as (s1 & E1 & Hn1 & _ & Hcd1 & Hc1 & Hd1).
  cbn [List.length] in Hlen. rewrite Nat2Z.inj_succ in Hlen.
  assert (He1 : u32 (millis (delay 10 s1) - countdownStart (delay 10 s1))
                = 10).
  { unfold millis. cbn. rewrite Hc1, Hcd1, u32_advance, Z.sub_diag.
    reflexivity. }
  destruct (counting_run fuel pres (delay 10 s1) Hrest)
    as (s2 & E2 & Hn2 & _ & Hcd2 & Hd2 & Hc2).
  { exact Hd1. }
  { cbn. congruence. }
  { cbn. apply u32_idem. }
  { rewrite He1. lia. }
  destruct (run_stepOff s2 fuel x later Hd2) as (s' & E & Hn & Hs & Hp);
    auto.
  { rewrite Hcd2. cbn. congruence. }
  exists s'. rewrite map_app. cbn [app map run act].
  unfold loop at 1. rewrite E1. cbn [bind].
  rewrite run_app, E2. cbn [bind map]. rewrite E.
  unfold series, emptySeries in Hs. injection Hs as Ht Hl Hr.
  split; [reflexivity|]. split; [|repeat split; assumption].
  rewrite Hn, Hn2. cbn [delay notified set_clock]. rewrite Hn1.
  rewrite <- app_assoc. cbn [app]. unfold millis. rewrite Hc2.
  cbn [delay clock set_clock]. rewrite Hc1, u32_u32_add.
  cbn [List.length]. rewrite Nat2Z.inj_succ.
  replace (clock s + 10 * Z.succ (Z.of_nat (List.length pres)))
    with (clock s + 10 + 10 * Z.of_nat (List.length pres)) by lia.
  reflexivity.
Qed.

(** A first presence on clock reading 0 followed by a step-off on the next
    tick: the countdown never starts, so the step-off sends nothing and
    leaves the recorder as it is. *)
Lemma run_presence_at_zero_then_stepOff (s : Session) (fuel : nat)
      (x0 x : Sample) (later : list Sample) :
  deviceConnected s = true ->
  phase s = IDLE -> clock s = 0 ->
  stepsOn x0 = true ->
  stepsOff x = true ->
  Forall (fun x' => stepsOn x' = false) later ->
  exists s',
    run (map (Tick fuel) (x0 :: x :: later)) s = Some s'
    /\ notified s' = (notified s ++ [(0, "WEIGHT_DETECTED")])%list
    /\ series s' = series s
    /\ phase s' = IDLE.
Proof.
  intros Hc Hph H0 Hx0 Hx Hlater. apply phase_idle in Hph.
  destruct (loopBody_first_presence fuel x0 s Hc Hx0 Hph)
    as (s1 & E1 & Hn1 & Hs1 & Hcd1 & _).
  rewrite H0 in Hn1, Hcd1.
  assert (Hall : Forall (fun x' => stepsOn x' = false) (x :: later))
    by (constructor; [apply stepsOff_not_stepsOn, Hx|exact Hlater]).
  destruct (idle_run_silent fuel (x :: later) (delay 10 s1) Hcd1 Hall)
    as (s' & E' & Hn' & Ht' & Hl' & Hr' & Hcd').
  exists s'. cbn [map run act] in E' |- *. unfold loop at 1. rewrite E1.
  cbn [bind]. rewrite E'.
  split; [reflexivity|]. split; [rewrite Hn'; exact Hn1|].
  split; [|apply phase_idle, Hcd'].
  unfold series in Hs1 |- *. rewrite Ht', Hl', Hr'. exact Hs1.
Qed.

(** A first presence on clock reading 0 that lasts: the second tick with
    presence detects the weight once more and starts the countdown. *)
Lemma run_presence_from_zero_then_stepOff (s : Session) (fuel : nat)
      (x0 : Sample) (pres : list Sample) (x : Sample)
      (later : list Sample) :
  deviceConnected s = true ->
  phase s = IDLE -> clock s = 0 ->
  stepsOn x0 = true ->
  pres <> [] ->
  Forall (fun x' => stepsOn x' = true) pres ->
  10 * (Z.of_nat (List.length pres) - 1) < 5000 ->
  stepsOff x = true ->
  Forall (fun x' => stepsOn x' = false) later ->
  exists s',
    run (map (Tick fuel) (x0 :: pres ++ x :: later)) s = Some s'
    /\ notified s'
       = (notified s
          ++ [(0, "WEIGHT_DETECTED"); (10, "WEIGHT_DETECTED");
              (u32 (10 + 10 * Z.of_nat (List.length pres)),
               "STEPPED_OFF")])%list
    /\ times s' = [] /\ leadWeights s' = [] /\ trailWeights s' = []
    /\ phase s' = IDLE.
Proof.
  intros Hc Hph H0 Hx0 Hne Hpres Hlen Hx Hlater. apply phase_idle in Hph.
  destruct (loopBody_first_presence fuel x0 s Hc Hx0 Hph)
    as (s1 & E1 & Hn1 & _ & Hcd1 & Hc1 & Hd1 & _).
  rewrite H0 in Hn1, Hcd1, Hc1.
  assert (Hclk : clock (delay 10 s1) = 10)
    by (cbn [delay clock set_clock]; rewrite Hc1; reflexivity).
  destruct (run_presence_then_stepOff (delay 10 s1) fuel pres x later)
    as (s' & E & Hn & Hrest); auto.
  { apply phase_idle. exact Hcd1. }
  { rewrite Hclk. discriminate. }
  { rewrite Hclk. reflexivity. }
  exists s'. cbn [map run act]. unfold loop at 1. rewrite E1. cbn [bind].
  rewrite E. split; [reflexivity|]. split; [|exact Hrest].
  rewrite Hn, Hclk. cbn [delay notified set_clock]. rewrite Hn1.
  rewrite <- app_assoc. reflexivity.
Qed.

(** C7 (the code fails it on one run). When a sample shows no presence
    while a countdown is running, [STEPPED_OFF] goes out once, the recorder
    is emptied and the machine is back in [IDLE]; while presence stays away
    nothing more is sent. The presence test comes first in the tick:
    nothing is assumed about the elapsed countdown, so a step-off on the
    tick that reaches the 4000 ms or the 5000 ms mark is a step-off all the
    same (first part). Whole runs from [IDLE], a tick every 10 ms, presence
    on some ticks, the last of them before the 5000 ms boundary, then a
    tick without: when the first presence falls on a clock reading other
    than 0 the run sends [WEIGHT_DETECTED] once, [STEPPED_OFF] once and
    nothing else (second part). When it falls on clock reading 0 the
    countdown does not start, since 0 in [countdownStart] also means that
    none runs: a step-off on the next tick sends no [STEPPED_OFF] and
    leaves the recorder as it was (third part), and with presence on
    further ticks the weight is detected a second time, 10 ms later,
    before the one [STEPPED_OFF] (fourth part). *)
Theorem stepOff_once_then_idle :
  (forall (s : Session) (fuel : nat) (x : Sample) (later : list Sample),
      deviceConnected s = true ->
      phase s <> IDLE ->
      stepsOff x = true ->
      Forall (fun x' => stepsOn x' = false) later ->
      exists s',
        run (Tick fuel x :: map (Tick fuel) later) s = Some s'
        /\ notified s' = (notified s ++ [(millis s, "STEPPED_OFF")])%list
        /\ times s' = [] /\ leadWeights s' = [] /\ trailWeights s' = []
        /\ phase s' = IDLE)
  /\ (forall (s : Session) (fuel : nat) (pres : list Sample) (x : Sample)
             (later : list Sample),
         deviceConnected s = true ->
         phase s = IDLE -> clock s <> 0 -> u32 (clock s) = clock s ->
         pres <> [] ->
         Forall (fun x' => stepsOn x' = true) pres ->
         10 * (Z.of_nat (List.length pres) - 1) < 5000 ->
         stepsOff x = true ->
         Forall (fun x' => stepsOn x' = false) later ->
         exists s',
           run (map (Tick fuel) (pres ++ x :: later)) s = Some s'
           /\ notified s'
              = (notified s
                 ++ [(clock s, "WEIGHT_DETECTED");
                     (u32 (clock s + 10 * Z.of_nat (List.length pres)),
                      "STEPPED_OFF")])%list
           /\ times s' = [] /\ leadWeights s' = [] /\ trailWeights s' = []
           /\ phase s' = IDLE)
  /\ (forall (s : Session) (fuel : nat) (x0 x : Sample)
             (later : list Sample),
         deviceConnected s = true ->
         phase s = IDLE -> clock s = 0 ->
         stepsOn x0 = true ->
         stepsOff x = true ->
         Forall (fun x' => stepsOn x' = false) later ->
         exists s',
           run (map (Tick fuel) (x0 :: x :: later)) s = Some s'
           /\ notified s' = (notified s ++ [(0, "WEIGHT_DETECTED")])%list
           /\ series s' = series s
           /\ phase s' = IDLE)
  /\ (forall (s : Session) (fuel : nat) (x0 : Sample) (pres : list Sample)
             (x : Sample) (later : list Sample),
         deviceConnected s = true ->
         phase s = IDLE -> clock s = 0 ->
         stepsOn x0 = true ->
         pres <> [] ->
         Forall (fun x' => stepsOn x' = true) pres ->
         10 * (Z.of_nat (List.length pres) - 1) < 5000 ->
         stepsOff x = true ->
         Forall (fun x' => stepsOn x' = false) later ->
         exists s',
           run (map (Tick fuel) (x0 :: pres ++ x :: later)) s = Some s'
           /\ notified s'
              = (notified s
                 ++ [(0, "WEIGHT_DETECTED"); (10, "WEIGHT_DETECTED");
                     (u32 (10 + 10 * Z.of_nat (List.length pres)),
                      "STEPPED_OFF")])%list
           /\ times s' = [] /\ leadWeights s' = [] /\ trailWeights s' = []
           /\ phase s' = IDLE).
Proof.
  split; [|split; [|split]].
  - intros s fuel x later Hc Hph Hx Hlater.
    assert (Hcd : countdownStart s <> 0)
      by (intros H; apply Hph, phase_idle, H).
    destruct (run_stepOff s fuel x later Hc Hcd Hx Hlater)
      as (s' & E & Hn & Hs & Hp).
    exists s'. unfold series, emptySeries in Hs. injection Hs as Ht Hl Hr.
    repeat split; assumption.
  - exact run_presence_then_stepOff.
  - exact run_presence_at_zero_then_stepOff.
  - exact run_presence_from_zero_then_stepOff.
Qed.

Lemma stepOff_once_then_idle_witness :
  let s := after (onPadTicks 500) session6_3 in
  let z := onConnect (boot 0) in
  (deviceConnected s = true
   /\ phase s <> IDLE
   /\ u32 (millis s - countdownStart s) = 5000
   /\ stepsOff offPad = true
   /\ Forall (fun x' => stepsOn x' = false) [offPad; offPad]
   /\ exists s',
       run (Tick 200 offPad :: map (Tick 200) [offPad; offPad]) s = Some s'
       /\ notified s' = (notified s ++ [(millis s, "STEPPED_OFF")])%list
       /\ times s' = [] /\ leadWeights s' = [] /\ trailWeights s' = []
       /\ phase s' = IDLE)
  /\ (deviceConnected session6_3 = true
      /\ phase session6_3 = IDLE
      /\ clock session6_3 <> 0
      /\ Forall (fun x' => stepsOn x' = true) [onPad; onPad; onPad]
      /\ exists s',
          run (map (Tick 200) ([onPad; onPad; onPad] ++ offPad :: [offPad]))
              session6_3 = Some s'
          /\ notified s'
             = [(4000, "WEIGHT_DETECTED"); (4030, "STEPPED_OFF")]
          /\ phase s' = IDLE)
  /\ (deviceConnected z = true /\ phase z = IDLE /\ clock z = 0
      /\ stepsOn onPad = true /\ stepsOff offPad = true
      /\ exists s',
          run (map (Tick 200) (onPad :: offPad :: [offPad])) z = Some s'
          /\ notified s' = [(0, "WEIGHT_DETECTED")]
          /\ phase s' = IDLE)
  /\ (exists s',
         run (map (Tick 200) (onPad :: [onPad; onPad] ++ offPad :: [offPad]))
             z = Some s'
         /\ notified s'
            = [(0, "WEIGHT_DETECTED"); (10, "WEIGHT_DETECTED");
               (30, "STEPPED_OFF")]
         /\ phase s' = IDLE).
Proof.
  intros s z.
  assert (Hc : deviceConnected s = true) by (vm_compute; reflexivity).
  assert (Hph : phase s <> IDLE) by (vm_compute; discriminate).
  assert (Hx : stepsOff offPad = true) by (vm_compute; reflexivity).
  assert (Hon : stepsOn onPad = true) by (vm_compute; reflexivity).
  assert (Hl : Forall (fun x' => stepsOn x' = false) [offPad; offPad])
    by (repeat constructor).
  assert (Hp : Forall (fun x' => stepsOn x' = true) [onPad; onPad; onPad])
    by (repeat constructor).
  assert (Hp2 : Forall (fun x' => stepsOn x' = true) [onPad; onPad])
    by (repeat constructor).
  assert (Hl1 : Forall (fun x' => stepsOn x' = false) [offPad])
    by (repeat constructor).
  assert (H0 : clock session6_3 <> 0) by (vm_compute; discriminate).
  destruct stepOff_once_then_idle as (Hany & Hrun & Hzero & Hzero2).
  split; [|split; [|split]].
  - split; [exact Hc|split; [exact Hph|split; [vm_compute; reflexivity|]]].
    split; [exact Hx|split; [exact Hl|]].
    exact (Hany s 200%nat offPad [offPad; offPad] Hc Hph Hx Hl).
  - repeat (split; [assumption || reflexivity|]).
    destruct (Hrun session6_3 200%nat [onPad; onPad; onPad] offPad [offPad]
                eq_refl eq_refl H0 eq_refl ltac:(discriminate) Hp
                ltac:(vm_compute; reflexivity) Hx Hl1)
      as (s' & E & Hn & _ & _ & _ & Hi).
    exists s'. split; [exact E|]. split; [exact Hn|exact Hi].
  - repeat (split; [assumption || reflexivity|]).
    destruct (Hzero z 200%nat onPad offPad [offPad]
                eq_refl eq_refl eq_refl Hon Hx Hl1)
      as (s' & E & Hn & _ & Hi).
    exists s'. split; [exact E|]. split; [exact Hn|exact Hi].
  - destruct (Hzero2 z 200%nat onPad [onPad; onPad] offPad [offPad]
                eq_refl eq_refl eq_refl Hon ltac:(discriminate) Hp2
                ltac:(vm_compute; reflexivity) Hx Hl1)
      as (s' & E & Hn & _ & _ & _ & Hi).
    exists s'. split; [exact E|]. split; [exact Hn|exact Hi].
Defined.

(** The run that loses its [STEPPED_OFF]: booted 10 ms before [millis()]
    wraps, one tick with an empty pad, presence on the tick at clock
    reading 0, an empty pad on the next two ticks. [WEIGHT_DETECTED] is all
    that is sent. *)
Example stepOff_lost_at_clock_wrap :
  let s := onConnect (boot (UINT32_MOD - 10)) in
  option_map (fun s' => (notified s', phase s'))
    (run (map (Tick 200) [offPad; onPad; offPad; offPad]) s)
  = Some ([(0, "WEIGHT_DETECTED")], IDLE).
Proof. vm_compute. reflexivity. Qed.

(** ** The recorder *)

Lemma recordData_grows (s : Session) :
  let k := if recording s then 1%nat else 0%nat in
  List.length (times (recordData s)) = (List.length (times s) + k)%nat
  /\ List.length (leadWeights (recordData s))
     = (List.length (leadWeights s) + k)%nat
  /\ List.length (trailWeights (recordData s))
     = (List.length (trailWeights s) + k)%nat.
Proof.
  unfold recordData. destruct (recording s); cbn.
  - rewrite !length_app. cbn. auto.
  - rewrite !Nat.add_0_r. auto.
Qed.

Lemma recordData_aligned (s : Session) : aligned s -> aligned (recordData s).
Proof.
  unfold aligned. intros [H1 H2].
  destruct (recordData_grows s) as (Ht & Hl & Hr). cbv zeta in *.
  rewrite Ht, Hl, Hr, H1, H2. auto.
Qed.

Lemma recordWhile_aligned (fuel : nat) (recordEnd : Z) :
  forall s s' : Session,
    aligned s -> recordWhile fuel recordEnd s = Some s' -> aligned s'.
Proof.
  induction fuel as [|fuel IH]; intros s s' Ha; cbn [recordWhile];
    destruct (millis s <? recordEnd); try discriminate;
    try (intros [= <-]; exact Ha).
  destruct (F32.to_u32 _) as [d|]; cbn [bind]; [|discriminate].
  apply IH. apply (recordData_aligned s Ha).
Qed.

(** The swing sequence ends with [resetRecording]. *)
Lemma startSwing_resets (fuel : nat) (s s' : Session) :
  startSwing fuel s = Some s' ->
  series s' = emptySeries /\ countdownStart s' = 0 /\ recording s' = false.
Proof.
  unfold startSwing.
  destruct (F32.to_u32 _) as [recordEnd|]; cbn [bind]; [|discriminate].
  destruct (recordWhile _ _ _) as [s1|]; cbn [bind]; [|discriminate].
  destruct (F32.to_u32 _) as [d1|]; cbn [bind]; [|discriminate].
  destruct (F32.to_u32 _) as [d2|]; cbn [bind]; [|discriminate].
  intros [= <-]. repeat split.
Qed.

(** A tick either leaves the series as it found it or leaves it empty. *)
Lemma loopBody_series (fuel : nat) (x : Sample) (s s' : Session) :
  loopBody fuel x s = Some s' ->
  series s' = series s \/ series s' = emptySeries.
Proof.
  unfold loopBody, updateScales.
  repeat match goal with
         | |- context [if ?b then _ else _] => destruct b; cbn
         | |- Some _ = Some _ -> _ => intros [= <-]; auto
         | |- startSwing _ _ = Some _ -> _ =>
             intros H; right; apply (startSwing_resets _ _ _ H)
         end.
Qed.

Lemma act_series (a : Action) (s s' : Session) :
  act a s = Some s' -> series s' = series s \/ series s' = emptySeries.
Proof.
  destruct a as [| |raw|fuel x|ms]; cbn [act].
  - intros [= <-]. now left.
  - intros [= <-]. now right.
  - intros [= <-]. left. unfold onWrite. cbv zeta.
    destruct (found raw) as [|c rest]; [reflexivity|].
    destruct (Ascii.eqb c NUL); [reflexivity|].
    destruct (strchr _ _); reflexivity.
  - unfold loop. destruct (loopBody fuel x s) as [s1|] eqn:E; [|discriminate].
    cbn [bind]. intros [= <-]. apply (loopBody_series _ _ _ _ E).
  - intros [= <-]. now left.
Qed.

Lemma series_aligned (s s' : Session) :
  series s' = series s \/ series s' = emptySeries -> aligned s -> aligned s'.
Proof.
  unfold series, emptySeries, aligned.
  intros [[= -> -> ->]|[= -> -> ->]]; auto.
Qed.

Lemma run_aligned (acts : list Action) :
  forall s s' : Session, aligned s -> run acts s = Some s' -> aligned s'.
Proof.
  induction acts as [|a acts IH]; intros s s' Ha; cbn [run].
  - intros [= <-]. exact Ha.
  - destruct (act a s) as [s1|] eqn:E; cbn [bind]; [|discriminate].
    apply IH. apply (series_aligned s s1 (act_series _ _ _ E) Ha).
Qed.

Lemma run_keeps_empty (acts : list Action) :
  forall s s' : Session,
    series s = emptySeries -> run acts s = Some s' -> series s' = emptySeries.
Proof.
  induction acts as [|a acts IH]; intros s s' He; cbn [run].
  - intros [= <-]. exact He.
  - destruct (act a s) as [s1|] eqn:E; cbn [bind]; [|discriminate].
    apply IH. destruct (act_series _ _ _ E) as [H|H]; congruence.
Qed.

(** C8. The three sequences have the same length at every point a run of
    the sketch can be observed, between callbacks and inside the blocking
    recording loop: [recordData] adds one element to each of them or to
    none, and [resetRecording] and [onDisconnect] empty all three. *)
Theorem series_stay_aligned :
  (forall s : Session,
      let k := if recording s then 1%nat else 0%nat in
      List.length (times (recordData s)) = (List.length (times s) + k)%nat
      /\ List.length (leadWeights (recordData s))
         = (List.length (leadWeights s) + k)%nat
      /\ List.length (trailWeights (recordData s))
         = (List.length (trailWeights s) + k)%nat)
  /\ (forall s : Session,
         series (resetRecording s) = emptySeries
         /\ series (onDisconnect s) = emptySeries)
  /\ (forall now : Z, aligned (boot now))
  /\ (forall (acts : list Action) (s s' : Session),
         aligned s -> run acts s = Some s' -> aligned s')
  /\ (forall (fuel : nat) (recordEnd : Z) (s s' : Session),
         aligned s -> recordWhile fuel recordEnd s = Some s' -> aligned s').
Proof.
  split; [exact recordData_grows|].
  split; [intros s; split; reflexivity|].
  split; [intros now; split; reflexivity|].
  split; [exact run_aligned|exact recordWhile_aligned].
Qed.

Lemma series_stay_aligned_witness :
  let acts := Connect :: Write (delivered "6/3") :: onPadTicks 501 in
  let s := boot 4000 in
  aligned s /\ run acts s = Some (after acts s) /\ aligned (after acts s).
Proof.
  intros acts s.
  assert (Ha : aligned s) by (split; reflexivity).
  assert (Hr : run acts s = Some (after acts s)) by (vm_compute; reflexivity).
  split; [exact Ha|split; [exact Hr|]].
  exact (proj1 (proj2 (proj2 (proj2 series_stay_aligned)))
           acts s (after acts s) Ha Hr).
Defined.

(** C1 (the code fails it). During the armed window a tick with presence
    raises the [recording] flag and appends nothing; [recordData] is only
    called by the swing sequence, after [START_SWING] has gone out. Between
    callbacks the recorder is therefore always empty, and it is empty when
    the tick that reaches 5000 ms enters the swing sequence. *)
Theorem recorder_empty_when_swing_starts :
  (forall (fuel : nat) (x : Sample) (s : Session),
      deviceConnected s = true -> stepsOn x = true ->
      countdownStart s <> 0 ->
      4000 <= u32 (millis s - countdownStart s) < 5000 ->
      exists s',
        loopBody fuel x s = Some s'
        /\ series s' = series s /\ recording s' = true)
  /\ (forall (acts : list Action) (now : Z) (s : Session),
         run acts (boot now) = Some s -> series s = emptySeries)
  /\ (forall (acts : list Action) (now : Z) (s : Session)
             (fuel : nat) (x : Sample),
         run acts (boot now) = Some s ->
         deviceConnected s = true -> stepsOn x = true ->
         countdownStart s <> 0 ->
         5000 <= u32 (millis s - countdownStart s) ->
         exists s1,
           loopBody fuel x s = startSwing fuel s1
           /\ List.length (times s1) = 0%nat
           /\ notified s1 = notified s).
Proof.
  split; [|split].
  - intros fuel x s Hc Hx Hcd [H4 H5].
    destruct (loopBody_counting fuel x s Hc Hx Hcd H5)
      as (s' & E & Hs & _ & Hr & _).
    exists s'. repeat split; auto.
    rewrite Hr. apply Z.leb_le in H4. rewrite H4. apply orb_true_r.
  - intros acts now s H. apply (run_keeps_empty acts (boot now) s); auto.
  - intros acts now s fuel x H Hc Hx Hcd H5.
    destruct (loopBody_trigger fuel x s Hc Hx Hcd H5)
      as (s1 & E & Hs & Hn & _).
    exists s1. repeat split; auto.
    assert (He : series s = emptySeries)
      by (apply (run_keeps_empty acts (boot now) s); auto).
    rewrite He in Hs. unfold series, emptySeries in Hs.
    injection Hs as -> _ _. reflexivity.
Qed.

Lemma recorder_empty_when_swing_starts_witness :
  let acts := Connect :: onPadTicks 500 in
  let s := after acts (boot 4000) in
  run acts (boot 4000) = Some s
  /\ deviceConnected s = true /\ stepsOn onPad = true
  /\ countdownStart s <> 0
  /\ 5000 <= u32 (millis s - countdownStart s)
  /\ exists s1,
      loopBody 200 onPad s = startSwing 200 s1
      /\ List.length (times s1) = 0%nat
      /\ notified s1 = notified s.
Proof.
  intros acts s.
  assert (Hr : run acts (boot 4000) = Some s) by (vm_compute; reflexivity).
  assert (Hc : deviceConnected s = true) by (vm_compute; reflexivity).
  assert (Hx : stepsOn onPad = true) by (vm_compute; reflexivity).
  assert (Hcd : countdownStart s <> 0) by (vm_compute; discriminate).
  assert (H5 : 5000 <= u32 (millis s - countdownStart s))
    by (vm_compute; discriminate).
  repeat (split; [assumption|]).
  exact (proj2 (proj2 recorder_empty_when_swing_starts)
           acts 4000 s 200%nat onPad Hr Hc Hx Hcd H5).
Defined.

(** With presence from the first tick on and a tick every 10 ms: after the
    tick at 4990 ms into the countdown the flag is up and nothing has been
    recorded, and the first sample the next tick takes carries the relative
    time 1.0000 s, not 0. *)
Example armed_window_records_nothing :
  let s := after (Connect :: onPadTicks 500) (boot 4000) in
  notified s = [(4000, "WEIGHT_DETECTED")]
  /\ recording s = true
  /\ u32 (millis s - 10 - countdownStart s) = 4990
  /\ series s = emptySeries
  /\ option_map (fun s' => hd_error (times (recordData s')))
       (Some (set_recording true (notify "START_SWING" s)))
     = Some (Some (f32 1 1)).
Proof. vm_compute. repeat split. Qed.

(** ** The swing sequence *)

(** [SAMPLE_INTERVAL * 1000] is 12.5, and [delay] takes 12 of it. *)
Lemma sample_delay :
  F32.to_u32 (F32.mul SAMPLE_INTERVAL (F32.of_Z 1000)) = Some 12.
Proof. vm_compute. reflexivity. Qed.

(** The recording loop, away from the wrap of the clock: it takes a sample
    every 12 ms until the clock has reached [recordEnd], [n] samples in all,
    and sends nothing. *)
Lemma recordWhile_runs (n : nat) :
  forall (fuel : nat) (recordEnd : Z) (s : Session),
    (n <= fuel)%nat ->
    0 <= clock s -> clock s + 12 * Z.of_nat n < UINT32_MOD ->
    recordEnd <= clock s + 12 * Z.of_nat n ->
    (n <> 0%nat -> clock s + 12 * (Z.of_nat n - 1) < recordEnd) ->
    exists s',
      recordWhile fuel recordEnd s = Some s'
      /\ clock s' = clock s + 12 * Z.of_nat n
      /\ notified s' = notified s
      /\ recording s' = recording s
      /\ (recording s = true ->
          List.length (times s') = (List.length (times s) + n)%nat).
Proof.
  induction n as [|n IH]; intros fuel recordEnd s Hf H0 Hmax Hend Hlast.
  - exists s.
    assert (E : (millis s <? recordEnd) = false)
      by (apply Z.ltb_ge; unfold millis; lia).
    destruct fuel; cbn [recordWhile]; rewrite E;
      repeat split; auto; lia.
  - destruct fuel as [|fuel]; [lia|].
    assert (E : (millis s <? recordEnd) = true).
    { apply Z.ltb_lt. unfold millis.
      specialize (Hlast ltac:(discriminate)). lia. }
    cbn [recordWhile]. rewrite E, sample_delay. cbn [bind].
    assert (Hc : clock (delay 12 (recordData s)) = clock s + 12).
    { unfold recordData. destruct (recording s); cbn;
        apply u32_small; unfold UINT32_MOD in *; lia. }
    assert (Hlast' : n <> 0%nat ->
              clock (delay 12 (recordData s)) + 12 * (Z.of_nat n - 1)
              < recordEnd).
    { intros Hn. rewrite Hc. specialize (Hlast ltac:(discriminate)). lia. }
    destruct (IH fuel recordEnd (delay 12 (recordData s))
                ltac:(lia) ltac:(lia) ltac:(lia) ltac:(lia) Hlast')
      as (s' & E' & Hc' & Hn' & Hr' & Hl').
    assert (Hkeep : notified (delay 12 (recordData s)) = notified s
                    /\ recording (delay 12 (recordData s)) = recording s)
      by (unfold recordData; destruct (recording s) eqn:Hrec; split; cbn;
          auto).
    destruct Hkeep as [Hkn Hkr].
    exists s'. split; [exact E'|]. split; [lia|].
    split; [congruence|]. split; [congruence|].
    intros Hrec. rewrite Hl' by congruence.
    unfold recordData. rewrite Hrec. cbn. rewrite length_app. cbn. lia.
Qed.






(** * Further properties *)

(** ** Command parsing, continued *)

Lemma clamp_int_range (z : Z) : INT_MIN <= clamp_int z <= INT_MAX.
Proof. unfold clamp_int, INT_MIN, INT_MAX. lia. Qed.

Lemma atoi_range (s : string) : INT_MIN <= atoi s <= INT_MAX.
Proof.
  unfold atoi. destruct (skip_space s) as [|a rest].
  - unfold INT_MIN, INT_MAX. lia.
  - destruct (Ascii.eqb a "-"); [apply clamp_int_range|].
    destruct (Ascii.eqb a "+"); apply clamp_int_range.
Qed.

Lemma numeral_value_to_uint (p : positive) :
  numeral_value (Pos.to_uint p) = Zpos p.
Proof.
  unfold numeral_value, N.of_uint. now rewrite DecimalPos.Unsigned.of_to.
Qed.

(** [String(int)] is a numeral, with a minus sign in front when negative. *)
Lemma String_of_int_shape (z : Z) :
  exists (neg : bool) (u : Decimal.uint),
    String_of_int z
    = (if neg then String "-" (numeral u) else numeral u)
    /\ z = (if neg then - numeral_value u else numeral_value u).
Proof.
  destruct z as [|p|p].
  - exists false, (Decimal.D0 Decimal.Nil). split; reflexivity.
  - exists false, (Pos.to_uint p). split; [reflexivity|].
    now rewrite numeral_value_to_uint.
  - exists true, (Pos.to_uint p). split; [reflexivity|].
    now rewrite numeral_value_to_uint.
Qed.

Lemma atoi_String_of_int (z : Z) :
  INT_MIN <= z <= INT_MAX -> atoi (String_of_int z) = z.
Proof.
  intros Hz. destruct (String_of_int_shape z) as (neg & u & -> & Hv).
  destruct neg.
  - rewrite atoi_minus_numeral, <- Hv. now apply clamp_int_id.
  - rewrite atoi_numeral, <- Hv. now apply clamp_int_id.
Qed.

Lemma String_of_int_plain (c : ascii) (z : Z) :
  is_digit c = false -> Ascii.eqb "-" c = false ->
  occurs c (String_of_int z) = false.
Proof.
  intros Hd Hm. destruct (String_of_int_shape z) as (neg & u & -> & _).
  assert (H : occurs c (numeral u) = false)
    by (apply all_digits_occurs; [exact Hd|apply numeral_digits_only]).
  destruct neg; [cbn [occurs]; now rewrite Hm, H|exact H].
Qed.

Lemma occurs_append (c : ascii) (a b : string) :
  occurs c (a ++ b) = (occurs c a || occurs c b)%bool.
Proof.
  induction a as [|x a IH]; cbn; [reflexivity|].
  now rewrite IH, orb_assoc.
Qed.

(** X2. The tempo String that [onWrite] stores is itself a command that
    parses back to the stored counts: [atoi] undoes [String(int)] on every
    [int], and when the callback finds a command with a [/] and then finds
    the stored tempo of that write, the second write changes nothing. The
    statement is about the bytes the callback finds where [rxData] points,
    whatever was written. *)
Theorem tempo_string_round_trip :
  (forall z : Z, INT_MIN <= z <= INT_MAX -> atoi (String_of_int z) = z)
  /\ (forall (d d' : Delivery) (l r : string) (s : Session),
         found d = (l ++ String "/" r)%string ->
         occurs "/" l = false -> occurs NUL l = false ->
         found d' = tempo (onWrite d s) ->
         onWrite d' (onWrite d s) = onWrite d s).
Proof.
  split; [exact atoi_String_of_int|].
  intros d d' l r s Ef Hs Hn Ef'.
  rewrite (onWrite_slash l r d s Ef Hs Hn) in Ef' |- *.
  set (b := atoi l) in *. set (dn := atoi r) in *.
  cbn [tempo set_tempo] in Ef'.
  assert (Ef2 : found d'
                = (String_of_int b ++ String "/" (String_of_int dn))%string)
    by exact Ef'.
  rewrite (onWrite_slash _ _ d' _ Ef2).
  - rewrite !atoi_String_of_int by apply atoi_range.
    destruct s; reflexivity.
  - apply String_of_int_plain; reflexivity.
  - apply String_of_int_plain; reflexivity.
Qed.

Lemma tempo_string_round_trip_witness :
  (INT_MIN <= -40 <= INT_MAX /\ atoi (String_of_int (-40)) = -40)
  /\ (found (delivered " 7/-12x") = (" 7" ++ String "/" "-12x")%string
      /\ occurs "/" " 7" = false /\ occurs NUL " 7" = false
      /\ tempo (onWrite (delivered " 7/-12x") (boot 0)) = "7/-12"
      /\ onWrite (delivered "7/-12") (onWrite (delivered " 7/-12x") (boot 0))
         = onWrite (delivered " 7/-12x") (boot 0)).
Proof.
  destruct tempo_string_round_trip as (Hrt & Hidem).
  split.
  - assert (H : INT_MIN <= -40 <= INT_MAX) by (vm_compute; split; discriminate).
    split; [exact H|exact (Hrt (-40) H)].
  - split; [reflexivity|split; [reflexivity|split; [reflexivity|]]].
    split; [reflexivity|].
    exact (Hidem (delivered " 7/-12x") (delivered "7/-12") " 7" "-12x"
                 (boot 0) eq_refl eq_refl eq_refl eq_refl).
Defined.

Lemma digits_acc_stops (c : ascii) (l r : string) :
  is_digit c = false ->
  forall acc, digits_acc acc (l ++ String c r) = digits_acc acc l.
Proof.
  intros Hc. induction l as [|a l IH]; intros acc; cbn.
  - now rewrite Hc.
  - destruct (is_digit a); [apply IH|reflexivity].
Qed.

Lemma atoi_numeral_then (u : Decimal.uint) (c : ascii) (rest : string) :
  is_digit c = false ->
  atoi (numeral u ++ String c rest) = clamp_int (numeral_value u).
Proof.
  intros Hc. destruct (numeral_nonempty u) as (a & tl & E & Ha).
  rewrite <- digits_acc_of_numeral, E. unfold atoi. cbn [append skip_space].
  destruct (is_digit_not_special a Ha) as (-> & -> & -> & _).
  change (String a (tl ++ String c rest)) with (String a tl ++ String c rest)%string.
  now rewrite (digits_acc_stops c _ _ Hc).
Qed.

(** X3. Text after the second number is ignored. When the callback finds
    two numerals that fit an [int], separated by [/] and followed by any
    character that is not a digit and anything after it (a second [/]
    included), it sets the tempo to the two numbers. The statement is about
    the bytes the callback finds where [rxData] points. *)
Theorem onWrite_ignores_trailing_text :
  forall (dl : Delivery) (b d : Decimal.uint) (c : ascii) (rest : string)
         (s : Session),
    found dl
    = (numeral b ++ String "/" (numeral d ++ String c rest))%string ->
    numeral_value b <= INT_MAX -> numeral_value d <= INT_MAX ->
    is_digit c = false ->
    tempoConfig (onWrite dl s) = (numeral_value b, numeral_value d).
Proof.
  intros dl b d c rest s Ef Hb Hd Hc.
  assert (H0 : forall u, 0 <= numeral_value u)
    by (intros u; apply N2Z.is_nonneg).
  rewrite (onWrite_slash _ _ dl s Ef).
  - unfold tempoConfig. cbn.
    rewrite atoi_numeral, (atoi_numeral_then d c rest Hc), !clamp_int_id;
      [reflexivity| |]; unfold INT_MIN; split; auto;
      eapply Z.le_trans; try apply H0; lia.
  - apply all_digits_occurs; [reflexivity|apply numeral_digits_only].
  - apply all_digits_occurs; [reflexivity|apply numeral_digits_only].
Qed.

Lemma onWrite_ignores_trailing_text_witness :
  found (delivered "1/2/3") = "1/2/3"
  /\ numeral_value (Decimal.D1 Decimal.Nil) <= INT_MAX
  /\ numeral_value (Decimal.D2 Decimal.Nil) <= INT_MAX
  /\ is_digit "/" = false
  /\ tempoConfig (onWrite (delivered "1/2/3") (boot 0)) = (1, 2).
Proof.
  assert (H1 : numeral_value (Decimal.D1 Decimal.Nil) <= INT_MAX)
    by (vm_compute; discriminate).
  assert (H2 : numeral_value (Decimal.D2 Decimal.Nil) <= INT_MAX)
    by (vm_compute; discriminate).
  split; [reflexivity|split; [exact H1|split; [exact H2|split; [reflexivity|]]]].
  exact (onWrite_ignores_trailing_text (delivered "1/2/3")
           (Decimal.D1 Decimal.Nil) (Decimal.D2 Decimal.Nil) "/"%char "3"
           (boot 0) eq_refl H1 H2 eq_refl).
Defined.

Lemma onWrite_keeps (d : Delivery) (s : Session) :
  deviceConnected (onWrite d s) = deviceConnected s
  /\ recording (onWrite d s) = recording s
  /\ countdownStart (onWrite d s) = countdownStart s
  /\ series (onWrite d s) = series s
  /\ clock (onWrite d s) = clock s
  /\ notified (onWrite d s) = notified s.
Proof.
  unfold onWrite. cbv zeta.
  destruct (found d) as [|c rest]; [repeat split|].
  destruct (Ascii.eqb c NUL); [repeat split|].
  destruct (strchr _ _); repeat split.
Qed.

(** X4. A write never touches anything but the tempo: whatever bytes were
    written and whatever bytes the callback finds, the connection and
    recording flags, the countdown, the series, the clock and the
    notification channel are as before. *)
Theorem onWrite_touches_tempo_only :
  forall (d : Delivery) (s : Session),
    deviceConnected (onWrite d s) = deviceConnected s
    /\ recording (onWrite d s) = recording s
    /\ countdownStart (onWrite d s) = countdownStart s
    /\ series (onWrite d s) = series s
    /\ clock (onWrite d s) = clock s
    /\ notified (onWrite d s) = notified s.
Proof. exact onWrite_keeps. Qed.

(** ** The recording loop, continued *)

Lemma recordData_control (s : Session) :
  control (recordData s) = control s
  /\ clock (recordData s) = clock s
  /\ leadData (recordData s) = leadData s
  /\ trailData (recordData s) = trailData s.
Proof. unfold recordData. destruct (recording s) eqn:E; repeat split. Qed.

(** The recording loop sends nothing and changes no flag, and the scales
    read the same after it as before. *)
Lemma recordWhile_control (fuel : nat) (recordEnd : Z) :
  forall s s' : Session,
    recordWhile fuel recordEnd s = Some s' ->
    control s' = control s
    /\ leadData s' = leadData s /\ trailData s' = trailData s.
Proof.
  induction fuel as [|fuel IH]; intros s s'; cbn [recordWhile];
    destruct (millis s <? recordEnd); try discriminate;
    try (intros [= <-]; repeat split).
  rewrite sample_delay. cbn [bind]. intros H.
  destruct (IH _ _ H) as (Hc & Hl & Ht).
  destruct (recordData_control s) as (Hc' & _ & Hl' & Ht').
  repeat split; [rewrite Hc|rewrite Hl|rewrite Ht]; assumption.
Qed.

(** What the loop appends: some relative times, and as many copies of the
    reading the scales held when it began, [getData] being called without
    [update]. *)
Lemma recordWhile_appends (fuel : nat) (recordEnd : Z) :
  forall s s' : Session,
    recording s = true ->
    recordWhile fuel recordEnd s = Some s' ->
    exists ts : list F32.t,
      times s' = (times s ++ ts)%list
      /\ leadWeights s'
         = (leadWeights s ++ repeat (leadData s) (List.length ts))%list
      /\ trailWeights s'
         = (trailWeights s ++ repeat (trailData s) (List.length ts))%list.
Proof.
  induction fuel as [|fuel IH]; intros s s' Hrec; cbn [recordWhile];
    destruct (millis s <? recordEnd); try discriminate;
    try (intros [= <-]; exists []; cbn; rewrite !app_nil_r; auto).
  rewrite sample_delay. cbn [bind]. intros H.
  destruct (IH (delay 12 (recordData s)) s') as (ts & Ht & Hl & Hr);
    [unfold recordData; rewrite Hrec; cbn; exact Hrec|exact H|].
  unfold recordData in Ht, Hl, Hr. rewrite Hrec in Ht, Hl, Hr.
  cbn in Ht, Hl, Hr.
  exists (relativeTime s :: ts). cbn [List.length repeat].
  rewrite Ht, Hl, Hr, <- !app_assoc. auto.
Qed.

Lemma to_u32_range (x : F32.t) (v : Z) :
  F32.to_u32 x = Some v -> 0 <= v < UINT32_MOD.
Proof.
  unfold F32.to_u32. destruct x as [sg|sg| |sg m e]; try discriminate.
  - intros [= <-]. unfold UINT32_MOD. lia.
  - set (w := if 0 <=? e then Z.shiftl (Z.pos m) e
              else Z.shiftr (Z.pos m) (- e)).
    assert (Hw : 0 <= w).
    { subst w. destruct (0 <=? e).
      - apply Z.shiftl_nonneg. lia.
      - apply Z.shiftr_nonneg. lia. }
    destruct sg.
    + destruct (w =? 0); [|discriminate]. intros [= <-].
      unfold UINT32_MOD. lia.
    + destruct (w <? UINT32_MOD) eqn:E; [|discriminate]. intros [= <-].
      apply Z.ltb_lt in E. lia.
Qed.

Lemma samplesUntil_spec (recordEnd now : Z) :
  let n := samplesUntil recordEnd now in
  recordEnd <= now + 12 * Z.of_nat n
  /\ (n <> 0%nat -> now + 12 * (Z.of_nat n - 1) < recordEnd)
  /\ (recordEnd <= now -> n = 0%nat).
Proof.
  unfold samplesUntil. cbv zeta.
  pose proof (Z.div_mod (recordEnd - now + 11) 12 ltac:(lia)) as Hdm.
  pose proof (Z.mod_pos_bound (recordEnd - now + 11) 12 ltac:(lia)) as Hm.
  set (q := (recordEnd - now + 11) / 12) in *.
  destruct (Z.le_gt_cases q 0) as [Hq|Hq].
  - replace (Z.to_nat q) with 0%nat by lia. cbn. repeat split; lia.
  - rewrite Z2Nat.id by lia. repeat split; try lia.
Qed.

(** X5. The recording loop, away from the wrap of the clock. It takes
    [samplesUntil recordEnd now] samples, 12 ms apart, and returns with the
    clock less than 12 ms past [recordEnd]; it sends nothing; and every
    weight it records is the reading the scales held when the loop began. *)
Theorem recordWhile_samples :
  forall (fuel : nat) (recordEnd : Z) (s : Session),
    recording s = true ->
    0 <= clock s < recordEnd -> recordEnd + 12 <= UINT32_MOD ->
    (samplesUntil recordEnd (clock s) <= fuel)%nat ->
    exists (s' : Session) (ts : list F32.t),
      recordWhile fuel recordEnd s = Some s'
      /\ List.length ts = samplesUntil recordEnd (clock s)
      /\ recordEnd <= clock s' < recordEnd + 12
      /\ clock s' = clock s + 12 * Z.of_nat (List.length ts)
      /\ times s' = (times s ++ ts)%list
      /\ leadWeights s'
         = (leadWeights s ++ repeat (leadData s) (List.length ts))%list
      /\ trailWeights s'
         = (trailWeights s ++ repeat (trailData s) (List.length ts))%list
      /\ notified s' = notified s.
Proof.
  intros fuel recordEnd s Hrec Hclk Hmax Hfuel.
  destruct (samplesUntil_spec recordEnd (clock s)) as (Hup & Hlow & _).
  set (n := samplesUntil recordEnd (clock s)) in *.
  assert (Hn : n <> 0%nat).
  { intros E. rewrite E in Hup. lia. }
  specialize (Hlow Hn).
  destruct (recordWhile_runs n fuel recordEnd s Hfuel)
    as (s' & E & Hc & Hnot & _ & Hlen); try lia.
  destruct (recordWhile_appends fuel recordEnd s s' Hrec E)
    as (ts & Ht & Hl & Hr).
  assert (Hts : List.length ts = n).
  { specialize (Hlen Hrec). rewrite Ht, length_app in Hlen. lia. }
  exists s', ts.
  split; [exact E|]. split; [exact Hts|].
  split; [lia|]. split; [rewrite Hts; exact Hc|].
  repeat split; assumption.
Qed.

Lemma recordWhile_samples_witness :
  let s := set_recording true
             (notify "START_SWING" (after (onPadTicks 500) session6_3)) in
  recording s = true
  /\ 0 <= clock s < 10297 /\ 10297 + 12 <= UINT32_MOD
  /\ (samplesUntil 10297 (clock s) <= 200)%nat
  /\ samplesUntil 10297 (clock s) = 109%nat
  /\ exists (s' : Session) (ts : list F32.t),
      recordWhile 200 10297 s = Some s'
      /\ List.length ts = samplesUntil 10297 (clock s)
      /\ 10297 <= clock s' < 10297 + 12
      /\ clock s' = clock s + 12 * Z.of_nat (List.length ts)
      /\ times s' = (times s ++ ts)%list
      /\ leadWeights s'
         = (leadWeights s ++ repeat (leadData s) (List.length ts))%list
      /\ trailWeights s'
         = (trailWeights s ++ repeat (trailData s) (List.length ts))%list
      /\ notified s' = notified s.
Proof.
  intros s.
  assert (Hr : recording s = true) by reflexivity.
  assert (Hc : 0 <= clock s < 10297) by (vm_compute; split; congruence).
  assert (Hm : 10297 + 12 <= UINT32_MOD) by (vm_compute; discriminate).
  assert (Hn : samplesUntil 10297 (clock s) = 109%nat)
    by (vm_compute; reflexivity).
  assert (Hf : (samplesUntil 10297 (clock s) <= 200)%nat)
    by (rewrite Hn; lia).
  split; [exact Hr|split; [exact Hc|split; [exact Hm|]]].
  split; [exact Hf|split; [exact Hn|]].
  exact (recordWhile_samples 200%nat 10297 s Hr Hc Hm Hf).
Defined.

(** ** The swing sequence, continued *)

(** Reduce the projections of an updated session and nothing else. *)
Tactic Notation "session_cbn" :=
  cbn [deviceConnected recording tempo backFrames downFrames countdownStart
       times leadWeights trailWeights lastTime leadData trailData clock
       notified set_deviceConnected set_recording set_tempo set_backFrames
       set_downFrames set_countdownStart set_times set_leadWeights
       set_trailWeights set_lastTime set_leadData set_trailData set_clock
       set_notified delay notify millis sendData resetRecording].
Tactic Notation "session_cbn" "in" hyp(H) :=
  cbn [deviceConnected recording tempo backFrames downFrames countdownStart
       times leadWeights trailWeights lastTime leadData trailData clock
       notified set_deviceConnected set_recording set_tempo set_backFrames
       set_downFrames set_countdownStart set_times set_leadWeights
       set_trailWeights set_lastTime set_leadData set_trailData set_clock
       set_notified delay notify millis sendData resetRecording] in H.

(** What any swing sequence that returns has done. *)
Lemma startSwing_shape (fuel : nat) (s s' : Session) :
  startSwing fuel s = Some s' ->
  exists (tTop tImpact : Z) (ts : list F32.t),
    notified s'
    = (notified s
       ++ [(millis s, "START_SWING"); (tTop, "TOP_BEEP");
           (tImpact, "IMPACT_BEEP");
           (tImpact,
            render (times s ++ ts)
              (leadWeights s ++ repeat (leadData s) (List.length ts))
              (trailWeights s ++ repeat (trailData s) (List.length ts)))])%list
    /\ deviceConnected s' = deviceConnected s
    /\ tempo s' = tempo s
    /\ tempoConfig s' = tempoConfig s.
Proof.
  unfold startSwing.
  destruct (F32.to_u32 _) as [recordEnd|]; cbn [bind]; [|discriminate].
  destruct (recordWhile _ _ _) as [s1|] eqn:E; cbn [bind]; [|discriminate].
  destruct (F32.to_u32 _) as [d1|]; cbn [bind]; [|discriminate].
  destruct (F32.to_u32 _) as [d2|]; cbn [bind]; [|discriminate].
  intros [= <-].
  destruct (recordWhile_control _ _ _ _ E) as (Hc & _ & _).
  destruct (recordWhile_appends
              fuel recordEnd
              (set_recording true (notify "START_SWING" s)) s1 eq_refl E)
    as (ts & Ht & Hl & Hr).
  unfold control in Hc. cbn in Hc, Ht, Hl, Hr.
  injection Hc as Hdc _ Htempo Hb Hd _ Hn.
  exists (u32 (clock s1 + d1)), (u32 (u32 (clock s1 + d1) + d2)), ts.
  unfold tempoConfig, sendData. cbn.
  rewrite Hn, Ht, Hl, Hr, Hdc, Htempo, Hb, Hd, <- !app_assoc.
  repeat split.
Qed.


(** The steps of a swing sequence that returns: the end of the window as
    the [float] sum gives it, the recording loop up to it, and the two
    delays as the conversions of [frameDelay] give them. *)
Lemma startSwing_steps (fuel : nat) (s s' : Session) :
  startSwing fuel s = Some s' ->
  exists (recordEnd backDelay downDelay : Z) (sEnd : Session),
    F32.to_u32
      (F32.add (F32.of_Z (clock s))
         (F32.add (F32.add (frameDelay (backFrames s))
                           (frameDelay (downFrames s)))
                  (F32.of_Z 1000)))
    = Some recordEnd
    /\ recordWhile fuel recordEnd
         (set_recording true (notify "START_SWING" s)) = Some sEnd
    /\ F32.to_u32 (frameDelay (backFrames s)) = Some backDelay
    /\ F32.to_u32 (frameDelay (downFrames s)) = Some downDelay
    /\ notified s'
       = (notified s
          ++ [(clock s, "START_SWING");
              (u32 (clock sEnd + backDelay), "TOP_BEEP");
              (u32 (u32 (clock sEnd + backDelay) + downDelay),
               "IMPACT_BEEP");
              (u32 (u32 (clock sEnd + backDelay) + downDelay),
               render (times sEnd) (leadWeights sEnd)
                      (trailWeights sEnd))])%list.
Proof.
  unfold startSwing. session_cbn.
  destruct (F32.to_u32 (F32.add _ _)) as [recordEnd|] eqn:Ee; cbn [bind];
    [|discriminate].
  destruct (recordWhile _ _ _) as [sEnd|] eqn:E; cbn [bind]; [|discriminate].
  destruct (F32.to_u32 (frameDelay (backFrames s))) as [d1|] eqn:E1;
    cbn [bind]; [|discriminate].
  destruct (F32.to_u32 (frameDelay (downFrames s))) as [d2|] eqn:E2;
    cbn [bind]; [|discriminate].
  intros [= <-].
  destruct (recordWhile_control _ _ _ _ E) as (Hc & _ & _).
  unfold control in Hc. session_cbn in Hc. injection Hc as _ _ _ _ _ _ Hn.
  exists recordEnd, d1, d2, sEnd.
  do 4 (split; [first [reflexivity|assumption]|]).
  session_cbn. rewrite Hn, <- !app_assoc. reflexivity.
Qed.




(** Where [float] no longer holds [millis() + 1297] exactly the window
    comes out shorter: triggered at 2^24 + 1 ms, [recordEnd] is 1295 ms
    ahead, the loop ends after 1296 ms and [TOP_BEEP] goes out 1494 ms
    after [START_SWING]. *)
Example late_clock_shortens_window :
  option_map
    (fun s => (sentAt "START_SWING" s, sentAt "TOP_BEEP" s,
               sentAt "IMPACT_BEEP" s))
    (loopBody 200 onPad (atClock 16777217))
  = Some (Some 16777217, Some (16777217 + 1494), Some (16777217 + 1494 + 99)).
Proof. vm_compute. reflexivity. Qed.

(** A delay that has no conversion to [unsigned long] stops the swing
    sequence: nothing checks the counts before they are used. *)
Lemma startSwing_undefined_delay (fuel : nat) (s : Session) :
  F32.to_u32 (frameDelay (backFrames s)) = None ->
  startSwing fuel s = None.
Proof.
  intros H. unfold startSwing. session_cbn.
  destruct (F32.to_u32 (F32.add _ _)) as [recordEnd|]; cbn [bind];
    [|reflexivity].
  destruct (recordWhile _ _ _) as [sEnd|]; cbn [bind]; [|reflexivity].
  rewrite H. reflexivity.
Qed.

(** The delay of a negative count (down to -1000) has no conversion. *)
Lemma frameDelay_negative (k : nat) :
  (k < 1000)%nat -> F32.to_u32 (frameDelay (- Z.of_nat (S k))) = None.
Proof.
  intros Hk.
  assert (H : forallb
                (fun k => match F32.to_u32 (frameDelay (- Z.of_nat (S k))) with
                          | None => true
                          | Some _ => false
                          end) (seq 0 1000) = true)
    by (vm_compute; reflexivity).
  rewrite forallb_forall in H. specialize (H k).
  destruct (F32.to_u32 _); [|reflexivity].
  assert (false = true); [|discriminate].
  apply H. apply in_seq. lia.
Qed.

(** C10 (the code fails it). The parsing is as the claim says, [atoi] on
    either side of the first [/] with nothing rejected, but it is applied
    to what the callback finds through the pointer of line 57, not to what
    was written: when the released storage shows no [/] before its first
    zero byte the command is dropped, whatever was written (first and
    second part; the 27-byte command 7/4 leaves the tempo at 6/3). Where the
    callback finds the bytes as they were written, both counts are set to
    [atoi] of their side, a negative number is stored as it is (["-2/3"]
    gives -2 and 3) and a side without leading digits is stored as 0 (third
    to seventh part). The swing sequence takes the stored counts as they
    are: its window and its two delays are the conversions of
    [frameDelay] of the counts, with no check before them, and with a
    count from -1000 to -1 the conversion of the delay has no defined
    result (last two parts). *)
Theorem onWrite_reads_released_storage :
  (forall (d : Delivery) (s : Session),
      strchr (found d) "/" = None -> onWrite d s = s)
  /\ (let d := mkDelivery command27 released27 in
      wellFormedCommand (written d) = true
      /\ strchr (written d) "/" = Some 25%nat
      /\ tempoConfig session6_3 = (6, 3)
      /\ tempoConfig (onWrite (delivered (written d)) session6_3) = (7, 4)
      /\ tempoConfig (onWrite d session6_3) = (6, 3))
  /\ (forall (d : Delivery) (l r : string) (s : Session),
         intact d -> written d = (l ++ String "/" r)%string ->
         occurs "/" l = false -> occurs NUL l = false ->
         tempoConfig (onWrite d s) = (atoi l, atoi r))
  /\ (forall u : Decimal.uint,
         INT_MIN <= - numeral_value u ->
         atoi (String "-" (numeral u)) = - numeral_value u)
  /\ (forall (a : ascii) (rest : string),
         is_digit a = false -> is_space a = false ->
         Ascii.eqb a "-" = false -> Ascii.eqb a "+" = false ->
         atoi (String a rest) = 0)
  /\ atoi "" = 0
  /\ (forall s : Session,
         tempoConfig (onWrite (delivered "-2/3") s) = (-2, 3))
  /\ (forall (fuel : nat) (s s' : Session),
         startSwing fuel s = Some s' ->
         exists (recordEnd backDelay downDelay : Z) (sEnd : Session),
           F32.to_u32
             (F32.add (F32.of_Z (clock s))
                (F32.add (F32.add (frameDelay (backFrames s))
                                  (frameDelay (downFrames s)))
                         (F32.of_Z 1000)))
           = Some recordEnd
           /\ recordWhile fuel recordEnd
                (set_recording true (notify "START_SWING" s)) = Some sEnd
           /\ F32.to_u32 (frameDelay (backFrames s)) = Some backDelay
           /\ F32.to_u32 (frameDelay (downFrames s)) = Some downDelay
           /\ notified s'
              = (notified s
                 ++ [(clock s, "START_SWING");
                     (u32 (clock sEnd + backDelay), "TOP_BEEP");
                     (u32 (u32 (clock sEnd + backDelay) + downDelay),
                      "IMPACT_BEEP");
                     (u32 (u32 (clock sEnd + backDelay) + downDelay),
                      render (times sEnd) (leadWeights sEnd)
                             (trailWeights sEnd))])%list)
  /\ (forall (fuel : nat) (s : Session),
         - 1000 <= backFrames s < 0 ->
         F32.to_u32 (frameDelay (backFrames s)) = None
         /\ startSwing fuel s = None).
Proof.
  split; [|split; [|split; [|split; [|split; [|split; [|split; [|split]]]]]]].
  - intros d s H. unfold onWrite. cbv zeta.
    destruct (found d) as [|c rest] eqn:E; [reflexivity|].
    destruct (Ascii.eqb c NUL); [reflexivity|]. rewrite H. reflexivity.
  - vm_compute. repeat split.
  - intros d l r s Hi Hw Hs Hn. unfold intact in Hi. rewrite <- Hi in Hw.
    rewrite (onWrite_slash l r d s Hw Hs Hn). reflexivity.
  - intros u Hu. rewrite atoi_minus_numeral. apply clamp_int_id.
    unfold numeral_value in *. unfold INT_MAX. lia.
  - exact atoi_no_digits.
  - reflexivity.
  - intros s.
    rewrite (onWrite_slash "-2" "3" (delivered "-2/3") s eq_refl eq_refl eq_refl).
    reflexivity.
  - exact startSwing_steps.
  - intros fuel s Hb.
    assert (H : F32.to_u32 (frameDelay (backFrames s)) = None).
    { replace (backFrames s)
        with (- Z.of_nat (S (Z.to_nat (- backFrames s - 1)))) by lia.
      apply frameDelay_negative. lia. }
    split; [exact H|]. apply startSwing_undefined_delay. exact H.
Qed.
Lemma onWrite_reads_released_storage_witness :
  let d := delivered "-2/3" in
  let lost := mkDelivery command27 released27 in
  let u := Decimal.D2 Decimal.Nil in
  let s := onWrite d (onConnect (boot 4000)) in
  (strchr (found lost) "/" = None
   /\ onWrite lost session6_3 = session6_3)
  /\ (intact d /\ written d = ("-2" ++ String "/" "3")%string
      /\ occurs "/" "-2" = false /\ occurs NUL "-2" = false
      /\ tempoConfig (onWrite d session6_3) = (atoi "-2", atoi "3"))
  /\ (INT_MIN <= - numeral_value u
      /\ atoi (String "-" (numeral u)) = - numeral_value u)
  /\ (is_digit "x" = false /\ is_space "x" = false
      /\ Ascii.eqb "x" "-" = false /\ Ascii.eqb "x" "+" = false
      /\ atoi (String "x" "12") = 0)
  /\ (- 1000 <= backFrames s < 0
      /\ F32.to_u32 (frameDelay (backFrames s)) = None
      /\ startSwing 200 s = None)
  /\ (let s6 := after (onPadTicks 500) session6_3 in
      let s' := match startSwing 200 s6 with Some s' => s' | None => s6 end in
      startSwing 200 s6 = Some s'
      /\ exists (recordEnd backDelay downDelay : Z) (sEnd : Session),
          F32.to_u32
            (F32.add (F32.of_Z (clock s6))
               (F32.add (F32.add (frameDelay (backFrames s6))
                                 (frameDelay (downFrames s6)))
                        (F32.of_Z 1000)))
          = Some recordEnd
          /\ recordWhile 200 recordEnd
               (set_recording true (notify "START_SWING" s6)) = Some sEnd
          /\ F32.to_u32 (frameDelay (backFrames s6)) = Some backDelay
          /\ F32.to_u32 (frameDelay (downFrames s6)) = Some downDelay
          /\ notified s'
             = (notified s6
                ++ [(clock s6, "START_SWING");
                    (u32 (clock sEnd + backDelay), "TOP_BEEP");
                    (u32 (u32 (clock sEnd + backDelay) + downDelay),
                     "IMPACT_BEEP");
                    (u32 (u32 (clock sEnd + backDelay) + downDelay),
                     render (times sEnd) (leadWeights sEnd)
                            (trailWeights sEnd))])%list).
Proof.
  intros d lost u s.
  destruct onWrite_reads_released_storage
    as (Hdrop & _ & Hatoi & Hminus & Hnone & _ & _ & Hsteps & Hneg).
  split; [|split; [|split; [|split; [|split]]]];
    [| | | | |intros s6 s';
              assert (Hr : startSwing 200 s6 = Some s')
                by (vm_compute; reflexivity);
              split; [exact Hr|exact (Hsteps 200%nat s6 s' Hr)]].
  - assert (H : strchr (found lost) "/" = None) by (vm_compute; reflexivity).
    split; [exact H|]. exact (Hdrop lost session6_3 H).
  - assert (Hi : intact d) by reflexivity.
    assert (Hw : written d = ("-2" ++ String "/" "3")%string) by reflexivity.
    assert (Hs : occurs "/" "-2" = false) by reflexivity.
    assert (Hn : occurs NUL "-2" = false) by reflexivity.
    repeat (split; [assumption|]).
    exact (Hatoi d "-2" "3" session6_3 Hi Hw Hs Hn).
  - assert (Hu : INT_MIN <= - numeral_value u) by (vm_compute; discriminate).
    split; [exact Hu|]. exact (Hminus u Hu).
  - assert (H1 : is_digit "x" = false) by reflexivity.
    assert (H2 : is_space "x" = false) by reflexivity.
    assert (H3 : Ascii.eqb "x" "-" = false) by reflexivity.
    assert (H4 : Ascii.eqb "x" "+" = false) by reflexivity.
    repeat (split; [assumption|]).
    exact (Hnone "x"%char "12" H1 H2 H3 H4).
  - assert (Hb : - 1000 <= backFrames s < 0)
      by (vm_compute; split; [discriminate|reflexivity]).
    split; [exact Hb|]. exact (Hneg 200%nat s Hb).
Defined.

(** X6. A swing sequence that returns has pushed exactly four values, in
    this order: [START_SWING], [TOP_BEEP], [IMPACT_BEEP] and the payload,
    the payload at the same clock reading as [IMPACT_BEEP]. The weights in
    the payload that were recorded by this sequence are all the one reading
    of the tick that triggered it. Afterwards the recorder is empty, the
    machine is in [IDLE], and connection flag and tempo are untouched. *)
Theorem startSwing_events :
  forall (fuel : nat) (s s' : Session),
    startSwing fuel s = Some s' ->
    (exists (tTop tImpact : Z) (ts : list F32.t),
        notified s'
        = (notified s
           ++ [(millis s, "START_SWING"); (tTop, "TOP_BEEP");
               (tImpact, "IMPACT_BEEP");
               (tImpact,
                render (times s ++ ts)
                  (leadWeights s ++ repeat (leadData s) (List.length ts))
                  (trailWeights s
                   ++ repeat (trailData s) (List.length ts)))])%list)
    /\ series s' = emptySeries
    /\ phase s' = IDLE
    /\ deviceConnected s' = deviceConnected s
    /\ tempoConfig s' = tempoConfig s.
Proof.
  intros fuel s s' H.
  destruct (startSwing_shape fuel s s' H)
    as (tTop & tImpact & ts & Hn & Hc & _ & Ht).
  destruct (startSwing_resets fuel s s' H) as (Hs & Hcd & _).
  split; [exists tTop, tImpact, ts; exact Hn|].
  repeat split; auto. apply phase_idle, Hcd.
Qed.

Lemma startSwing_events_witness :
  let s := after (onPadTicks 500) session6_3 in
  let s' := match startSwing 200 s with Some s' => s' | None => s end in
  startSwing 200 s = Some s'
  /\ series s' = emptySeries
  /\ phase s' = IDLE
  /\ tempoConfig s' = (6, 3).
Proof.
  intros s s'.
  assert (H : startSwing 200 s = Some s') by (vm_compute; reflexivity).
  split; [exact H|].
  destruct (startSwing_events 200%nat s s' H) as (_ & Hs & Hp & _ & Ht).
  split; [exact Hs|split; [exact Hp|exact Ht]].
Defined.

(** X7. The time line of the swing sequence for any tempo, away from the
    wrap of the clock and where the three conversions to [unsigned long]
    are defined. With [n] the number of 12 ms passes needed to reach the end
    of the recording window, [TOP_BEEP] goes out [12 n + backDelay] ms after
    [START_SWING] and [IMPACT_BEEP] [downDelay] ms after [TOP_BEEP]. With
    the tempo nobody has set, 0/0, both beeps go out at the same clock
    reading. *)
Theorem swing_timeline :
  forall (fuel : nat) (s : Session) (backDelay downDelay recordEnd : Z),
    F32.to_u32 (frameDelay (backFrames s)) = Some backDelay ->
    F32.to_u32 (frameDelay (downFrames s)) = Some downDelay ->
    F32.to_u32
      (F32.add (F32.of_Z (clock s))
         (F32.add (F32.add (frameDelay (backFrames s))
                           (frameDelay (downFrames s)))
                  (F32.of_Z 1000)))
    = Some recordEnd ->
    0 <= clock s ->
    clock s + 12 * Z.of_nat (samplesUntil recordEnd (clock s))
    + backDelay + downDelay < UINT32_MOD ->
    (samplesUntil recordEnd (clock s) <= fuel)%nat ->
    exists (s' : Session) (payload : string),
      startSwing fuel s = Some s'
      /\ let tEnd := clock s
                     + 12 * Z.of_nat (samplesUntil recordEnd (clock s)) in
         notified s'
         = (notified s
            ++ [(clock s, "START_SWING");
                (tEnd + backDelay, "TOP_BEEP");
                (tEnd + backDelay + downDelay, "IMPACT_BEEP");
                (tEnd + backDelay + downDelay, payload)])%list.
Proof.
  intros fuel s db dd recordEnd Hdb Hdd He H0 Hmax Hfuel.
  destruct (to_u32_range _ _ Hdb) as [Hdb0 _].
  destruct (to_u32_range _ _ Hdd) as [Hdd0 _].
  destruct (samplesUntil_spec recordEnd (clock s)) as (Hup & Hlow & _).
  set (n := samplesUntil recordEnd (clock s)) in *.
  unfold startSwing. session_cbn. rewrite He. cbn [bind].
  assert (Hmax1 : clock s + 12 * Z.of_nat n < UINT32_MOD) by lia.
  destruct (recordWhile_runs n fuel recordEnd
              (set_recording true (notify "START_SWING" s)) Hfuel
              H0 Hmax1 Hup Hlow)
    as (s1 & E1 & Hc1 & Hn1 & _).
  session_cbn in Hc1. session_cbn in Hn1.
  rewrite E1. cbn [bind]. rewrite Hdb. cbn [bind]. rewrite Hdd. cbn [bind].
  eexists. eexists. split; [reflexivity|].
  session_cbn. rewrite Hn1, Hc1.
  rewrite !u32_small by (rewrite ?u32_small; lia).
  rewrite <- !app_assoc. reflexivity.
Qed.

Lemma swing_timeline_witness :
  let s := after (Connect :: onPadTicks 500) (boot 4000) in
  tempoConfig s = (0, 0)
  /\ F32.to_u32 (frameDelay (backFrames s)) = Some 0
  /\ F32.to_u32 (frameDelay (downFrames s)) = Some 0
  /\ samplesUntil 10000 (clock s) = 84%nat
  /\ exists (s' : Session) (payload : string),
      startSwing 200 s = Some s'
      /\ let tEnd := clock s
                     + 12 * Z.of_nat (samplesUntil 10000 (clock s)) in
         notified s'
         = (notified s
            ++ [(clock s, "START_SWING");
                (tEnd + 0, "TOP_BEEP");
                (tEnd + 0 + 0, "IMPACT_BEEP");
                (tEnd + 0 + 0, payload)])%list.
Proof.
  intros s.
  assert (Hb : F32.to_u32 (frameDelay (backFrames s)) = Some 0)
    by (vm_compute; reflexivity).
  assert (Hd : F32.to_u32 (frameDelay (downFrames s)) = Some 0)
    by (vm_compute; reflexivity).
  assert (He : F32.to_u32
                 (F32.add (F32.of_Z (clock s))
                    (F32.add (F32.add (frameDelay (backFrames s))
                                      (frameDelay (downFrames s)))
                             (F32.of_Z 1000)))
               = Some 10000) by (vm_compute; reflexivity).
  assert (Hn : samplesUntil 10000 (clock s) = 84%nat)
    by (vm_compute; reflexivity).
  assert (H0 : 0 <= clock s) by (vm_compute; discriminate).
  assert (Hmax : clock s + 12 * Z.of_nat (samplesUntil 10000 (clock s))
                 + 0 + 0 < UINT32_MOD) by (vm_compute; reflexivity).
  assert (Hf : (samplesUntil 10000 (clock s) <= 200)%nat)
    by (rewrite Hn; lia).
  split; [reflexivity|split; [exact Hb|split; [exact Hd|split; [exact Hn|]]]].
  exact (swing_timeline 200%nat s 0 0 10000 Hb Hd He H0 Hmax Hf).
Defined.

(** ** Runs, continued *)

Ltac in_vocabulary :=
  repeat (apply Forall_cons;
          [cbn [snd];
           first [ left; cbn; tauto | right; do 3 eexists; reflexivity ]|]);
  apply Forall_nil.

(** What a tick can and cannot do to the flags and the channel. *)
Lemma loopBody_frame (fuel : nat) (x : Sample) (s s' : Session) :
  loopBody fuel x s = Some s' ->
  deviceConnected s' = deviceConnected s
  /\ tempo s' = tempo s
  /\ tempoConfig s' = tempoConfig s
  /\ exists evs : list (Z * string),
      notified s' = (notified s ++ evs)%list
      /\ Forall (fun e => inVocabulary (snd e)) evs.
Proof.
  unfold loopBody, updateScales.
  repeat match goal with
         | |- context [if ?b then _ else _] => destruct b eqn:?; cbn
         end;
    try (intros [= <-];
         repeat (split; [first [reflexivity|cbn; assumption]|]);
         first [ exists []; split; [symmetry; apply app_nil_r|constructor]
               | eexists; split; [reflexivity|in_vocabulary] ]);
    intros H;
    destruct (startSwing_shape _ _ _ H)
      as (tTop & tImp & ts & Hn & Hc & Ht & Hcfg);
    session_cbn in Hn; rewrite <- ?app_assoc in Hn;
    (split; [rewrite Hc; cbn; assumption
            |split; [exact Ht|split; [exact Hcfg|]]]);
    eexists; (split; [exact Hn|in_vocabulary]).
Qed.

Lemma act_frame (a : Action) (s s' : Session) :
  act a s = Some s' ->
  (isWrite a = false ->
   tempo s' = tempo s /\ tempoConfig s' = tempoConfig s)
  /\ exists evs : list (Z * string),
      notified s' = (notified s ++ evs)%list
      /\ Forall (fun e => inVocabulary (snd e)) evs.
Proof.
  destruct a as [| |raw|fuel x|ms]; cbn [act isWrite].
  - intros [= <-]. split; [split; reflexivity|].
    exists []. split; [symmetry; apply app_nil_r|constructor].
  - intros [= <-]. split; [split; reflexivity|].
    exists []. split; [symmetry; apply app_nil_r|constructor].
  - intros [= <-]. split; [discriminate|].
    exists []. split; [|constructor]. rewrite app_nil_r.
    apply onWrite_keeps.
  - unfold loop. destruct (loopBody fuel x s) as [s1|] eqn:E; [|discriminate].
    cbn [bind]. intros [= <-].
    destruct (loopBody_frame _ _ _ _ E) as (_ & Ht & Hc & evs & Hn & Hv).
    split; [intros _; split; assumption|]. exists evs. split; assumption.
  - intros [= <-]. split; [split; reflexivity|].
    exists []. split; [symmetry; apply app_nil_r|constructor].
Qed.

(** X8. The notification channel only grows, and by nothing but the five
    cue strings and payloads built by [sendData]: whatever the callbacks and
    ticks of a run, what was sent stays sent, in order, and every value
    added is in the vocabulary. *)
Theorem notified_grows_in_vocabulary :
  forall (acts : list Action) (s s' : Session),
    run acts s = Some s' ->
    exists evs : list (Z * string),
      notified s' = (notified s ++ evs)%list
      /\ Forall (fun e => inVocabulary (snd e)) evs.
Proof.
  induction acts as [|a acts IH]; intros s s'; cbn [run].
  - intros [= <-]. exists []. split; [symmetry; apply app_nil_r|constructor].
  - destruct (act a s) as [s1|] eqn:E; cbn [bind]; [|discriminate].
    intros H. destruct (act_frame _ _ _ E) as (_ & evs1 & Hn1 & Hv1).
    destruct (IH _ _ H) as (evs2 & Hn2 & Hv2).
    exists (evs1 ++ evs2)%list. split.
    + rewrite Hn2, Hn1, app_assoc. reflexivity.
    + apply Forall_app. split; assumption.
Qed.

Lemma notified_grows_in_vocabulary_witness :
  let acts := Connect :: Write (delivered "6/3") :: onPadTicks 501 in
  let s' := after acts (boot 4000) in
  run acts (boot 4000) = Some s'
  /\ exists evs : list (Z * string),
      notified s' = (notified (boot 4000) ++ evs)%list
      /\ Forall (fun e => inVocabulary (snd e)) evs.
Proof.
  intros acts s'.
  assert (H : run acts (boot 4000) = Some s') by (vm_compute; reflexivity).
  split; [exact H|].
  exact (notified_grows_in_vocabulary acts (boot 4000) s' H).
Defined.

(** X9. Only a write changes the tempo. A run without a write, whatever
    its ticks, swing sequences, step-offs and disconnects, ends with the
    frame counts and the tempo String it began with. *)
Theorem tempo_changed_by_write_only :
  forall (acts : list Action) (s s' : Session),
    forallb (fun a => negb (isWrite a)) acts = true ->
    run acts s = Some s' ->
    tempoConfig s' = tempoConfig s /\ tempo s' = tempo s.
Proof.
  induction acts as [|a acts IH]; intros s s' Hw; cbn [run].
  - intros [= <-]. split; reflexivity.
  - cbn [forallb] in Hw. apply andb_true_iff in Hw. destruct Hw as [Ha Hw].
    apply negb_true_iff in Ha.
    destruct (act a s) as [s1|] eqn:E; cbn [bind]; [|discriminate].
    intros H. destruct (act_frame _ _ _ E) as (Hk & _).
    destruct (Hk Ha) as [Ht Hc]. destruct (IH _ _ Hw H) as [Hc' Ht'].
    split; congruence.
Qed.

Lemma tempo_changed_by_write_only_witness :
  let acts :=
    (onPadTicks 501 ++ [Disconnect; Connect; Tick 200 offPad])%list in
  let s' := after acts session6_3 in
  forallb (fun a => negb (isWrite a)) acts = true
  /\ run acts session6_3 = Some s'
  /\ tempoConfig s' = (6, 3) /\ tempo s' = "6/3".
Proof.
  intros acts s'.
  assert (Hw : forallb (fun a => negb (isWrite a)) acts = true)
    by (vm_compute; reflexivity).
  assert (H : run acts session6_3 = Some s') by (vm_compute; reflexivity).
  split; [exact Hw|split; [exact H|]].
  exact (tempo_changed_by_write_only acts session6_3 s' Hw H).
Defined.

(** X10. While the device is not connected the sketch is mute and the
    countdown stands still: ticks (whatever the scales read), writes,
    further disconnects and the passing of time all return, send nothing
    and neither start nor reset a countdown. *)
Theorem disconnected_run_silent :
  forall (acts : list Action) (s : Session),
    deviceConnected s = false ->
    forallb (fun a => negb (isConnect a)) acts = true ->
    exists s',
      run acts s = Some s'
      /\ notified s' = notified s
      /\ countdownStart s' = countdownStart s
      /\ deviceConnected s' = false.
Proof.
  induction acts as [|a acts IH]; intros s Hd Hc.
  - exists s. repeat split; assumption.
  - cbn [forallb] in Hc. apply andb_true_iff in Hc. destruct Hc as [Ha Hc].
    assert (Hstep : exists s1,
               act a s = Some s1
               /\ notified s1 = notified s
               /\ countdownStart s1 = countdownStart s
               /\ deviceConnected s1 = false).
    { destruct a as [| |raw|fuel x|ms]; cbn [act].
      - discriminate Ha.
      - eexists. repeat split.
      - destruct (onWrite_keeps raw s)
          as (H1 & _ & H3 & _ & _ & H6).
        eexists. repeat split; congruence.
      - unfold loop, loopBody. rewrite Hd. cbn [bind].
        eexists. repeat split. exact Hd.
      - eexists. repeat split. exact Hd. }
    destruct Hstep as (s1 & E & Hn & Hcd & Hd1).
    destruct (IH s1 Hd1 Hc) as (s' & E' & Hn' & Hcd' & Hd').
    exists s'. cbn [run]. rewrite E. cbn [bind].
    repeat split; congruence.
Qed.

Lemma disconnected_run_silent_witness :
  let s := onDisconnect (after (onPadTicks 100) session6_3) in
  let acts :=
    (Write (delivered "8/4") :: Elapse 7000 :: onPadTicks 3 ++ [Disconnect])%list in
  deviceConnected s = false
  /\ forallb (fun a => negb (isConnect a)) acts = true
  /\ countdownStart s = 4000
  /\ exists s',
      run acts s = Some s'
      /\ notified s' = notified s
      /\ countdownStart s' = countdownStart s
      /\ deviceConnected s' = false.
Proof.
  intros s acts.
  assert (Hd : deviceConnected s = false) by reflexivity.
  assert (Hc : forallb (fun a => negb (isConnect a)) acts = true)
    by reflexivity.
  split; [exact Hd|split; [exact Hc|split; [vm_compute; reflexivity|]]].
  exact (disconnected_run_silent acts s Hd Hc).
Defined.

(** The flag is up only while a countdown runs: one tick. *)
Lemma loopBody_flag (fuel : nat) (x : Sample) (s s' : Session) :
  (recording s = true -> countdownStart s <> 0) ->
  loopBody fuel x s = Some s' ->
  recording s' = true -> countdownStart s' <> 0.
Proof.
  intros HI. unfold loopBody, updateScales.
  destruct (deviceConnected s); [|intros [= <-]; exact HI].
  destruct (leadReady x); [|intros [= <-]; exact HI].
  destruct (trailReady x); [|intros [= <-]; exact HI].
  cbn. destruct (presence _ _).
  - destruct (countdownStart s =? 0) eqn:Ecd.
    + assert (Hr : recording s = false).
      { destruct (recording s); [|reflexivity].
        apply Z.eqb_eq in Ecd. now destruct (HI eq_refl). }
      destruct (10 <=? u32 (clock s - lastTime s)); cbn; rewrite Ecd; cbn;
        unfold millis; cbn; rewrite Z.sub_diag; change (u32 0) with 0; cbn;
        intros [= <-]; cbn; congruence.
    + apply Z.eqb_neq in Ecd.
      destruct (10 <=? u32 (clock s - lastTime s)); cbn;
        rewrite (proj2 (Z.eqb_neq _ _) Ecd); cbn;
        (destruct (5000 <=? _);
         [intros H; destruct (startSwing_resets _ _ _ H) as (_ & _ & Hf);
          congruence|]);
        (destruct (_ && _)%bool; intros [= <-]; cbn; auto).
  - destruct (10 <=? u32 (clock s - lastTime s)); cbn;
      (destruct (countdownStart s =? 0) eqn:Ecd; cbn; intros [= <-]; cbn;
       [exact HI|discriminate]).
Qed.

(** X11. The [recording] flag is never up without a countdown: in every
    state a run can reach from power-up, [recording] implies
    [countdownStart != 0]. The 4000 ms branch is the only place outside the
    swing sequence that raises the flag, and it is under the presence test
    after the countdown has been started. *)
Theorem recording_implies_countdown :
  forall (acts : list Action) (now : Z) (s : Session),
    run acts (boot now) = Some s ->
    recording s = true -> countdownStart s <> 0.
Proof.
  intros acts now.
  assert (Hgen : forall s0 s : Session,
             (recording s0 = true -> countdownStart s0 <> 0) ->
             run acts s0 = Some s ->
             recording s = true -> countdownStart s <> 0).
  { induction acts as [|a acts IH]; intros s0 s HI; cbn [run].
    - intros [= <-]. exact HI.
    - destruct (act a s0) as [s1|] eqn:E; cbn [bind]; [|discriminate].
      apply IH. destruct a as [| |raw|fuel x|ms]; cbn [act] in E.
      + injection E as <-. exact HI.
      + injection E as <-. discriminate.
      + injection E as <-.
        destruct (onWrite_keeps raw s0) as (_ & Hr & Hc & _).
        rewrite Hr, Hc. exact HI.
      + unfold loop in E.
        destruct (loopBody fuel x s0) as [s2|] eqn:E2; [|discriminate].
        cbn [bind] in E. injection E as <-.
        exact (loopBody_flag _ _ _ _ HI E2).
      + injection E as <-. exact HI. }
  intros s. apply Hgen. discriminate.
Qed.

Lemma recording_implies_countdown_witness :
  let acts := Connect :: onPadTicks 450 in
  let s := after acts (boot 4000) in
  run acts (boot 4000) = Some s
  /\ recording s = true
  /\ countdownStart s <> 0.
Proof.
  intros acts s.
  assert (H : run acts (boot 4000) = Some s) by (vm_compute; reflexivity).
  assert (Hr : recording s = true) by (vm_compute; reflexivity).
  split; [exact H|split; [exact Hr|]].
  exact (recording_implies_countdown acts 4000 s H Hr).
Defined.

(** ** The tick, continued *)

(** When the flag goes up during a run of ticks with presence. *)
Lemma flag_run (fuel : nat) (xs : list Sample) :
  forall (x : Sample) (s s' : Session),
    Forall (fun x' => stepsOn x' = true) (x :: xs) ->
    deviceConnected s = true -> countdownStart s <> 0 ->
    u32 (millis s - countdownStart s) + 10 * Z.of_nat (S (List.length xs))
    <= 5000 ->
    run (map (Tick fuel) (x :: xs)) s = Some s' ->
    recording s'
    = (recording s
       || (4000 <=? u32 (millis s - countdownStart s)
                    + 10 * Z.of_nat (List.length xs)))%bool.
Proof.
  induction xs as [|y ys IH]; intros x s s' Hall Hc Hcd He;
    inversion Hall as [|? ? Hx Hrest]; subst;
    assert (Hpos : 0 <= u32 (millis s - countdownStart s))
      by (apply Z.mod_pos_bound; reflexivity);
    rewrite Nat2Z.inj_succ in He;
    destruct (loopBody_counting fuel x s Hc Hx Hcd ltac:(lia))
      as (s1 & E & _ & _ & Hr1 & Hcd1 & Hc1 & Hd1);
    cbn [map run act]; unfold loop at 1; rewrite E; cbn [bind].
  - intros [= <-]. cbn [List.length]. rewrite Z.add_0_r. exact Hr1.
  - intros H.
    assert (He1 : u32 (millis (delay 10 s1) - countdownStart (delay 10 s1))
                  = u32 (millis s - countdownStart s) + 10).
    { unfold millis. cbn. rewrite Hc1, Hcd1, u32_advance.
      apply u32_small. unfold millis, UINT32_MOD in *. lia. }
    cbn [List.length] in He. rewrite Nat2Z.inj_succ in He.
    rewrite (IH y (delay 10 s1) s' Hrest Hd1).
    + rewrite He1. cbn [recording delay set_clock]. rewrite Hr1.
      cbn [List.length]. rewrite Nat2Z.inj_succ.
      destruct (recording s); [reflexivity|]. cbn [orb].
      destruct (Z.leb_spec 4000 (u32 (millis s - countdownStart s)));
        destruct (Z.leb_spec 4000
                    (u32 (millis s - countdownStart s) + 10
                     + 10 * Z.of_nat (List.length ys)));
        destruct (Z.leb_spec 4000
                    (u32 (millis s - countdownStart s)
                     + 10 * Z.succ (Z.of_nat (List.length ys))));
        try reflexivity; lia.
    + cbn. congruence.
    + rewrite He1. rewrite Nat2Z.inj_succ. lia.
    + exact H.
Qed.

(** X12. A whole run with presence from [IDLE] on a connected session,
    started at a clock reading other than 0 (a 32-bit value), a tick every
    10 ms, the last tick still short of the 5000 ms boundary.
    [WEIGHT_DETECTED] goes out once, on the first tick, and nothing else;
    the countdown counts from the first tick, across the wrap of [millis()]
    as well; nothing is recorded; and the [recording] flag is up at the end
    exactly when a tick has seen 4000 ms or more. A first presence on clock
    reading 0 is not covered: it starts no countdown. *)
Theorem presence_run_arms :
  forall (s : Session) (fuel : nat) (pres : list Sample),
    deviceConnected s = true ->
    countdownStart s = 0 -> clock s <> 0 -> u32 (clock s) = clock s ->
    pres <> [] ->
    Forall (fun x => stepsOn x = true) pres ->
    10 * (Z.of_nat (List.length pres) - 1) < 5000 ->
    exists s',
      run (map (Tick fuel) pres) s = Some s'
      /\ notified s' = (notified s ++ [(clock s, "WEIGHT_DETECTED")])%list
      /\ countdownStart s' = clock s
      /\ u32 (millis s' - countdownStart s')
         = 10 * Z.of_nat (List.length pres)
      /\ series s' = series s
      /\ recording s'
         = (recording s
            || (4000 <=? 10 * (Z.of_nat (List.length pres) - 1)))%bool.
Proof.
  intros s fuel pres Hc Hcd H0 Hclk Hne Hpres Hlen.
  destruct pres as [|x0 pres]; [contradiction|].
  inversion Hpres as [|? ? Hx0 Hrest]; subst.
  destruct (loopBody_first_presence fuel x0 s Hc Hx0 Hcd)
    as (s1 & E1 & Hn1 & Hs1 & Hcd1 & Hc1 & Hd1 & Hr1).
  cbn [List.length] in Hlen |- *. rewrite Nat2Z.inj_succ in Hlen |- *.
  assert (He1 : u32 (millis (delay 10 s1) - countdownStart (delay 10 s1))
                = 10).
  { unfold millis. cbn. rewrite Hc1, Hcd1, u32_advance, Z.sub_diag.
    reflexivity. }
  assert (Hcd1' : countdownStart (delay 10 s1) <> 0) by (cbn; congruence).
  destruct (counting_run fuel pres (delay 10 s1) Hrest Hd1 Hcd1')
    as (s2 & E2 & Hn2 & Hs2 & Hcd2 & Hd2 & Hc2).
  { cbn. apply u32_idem. }
  { rewrite He1. lia. }
  exists s2. cbn [map run act]. unfold loop at 1. rewrite E1. cbn [bind].
  split; [exact E2|]. split; [rewrite Hn2; exact Hn1|].
  split; [rewrite Hcd2; exact Hcd1|].
  split.
  { unfold millis. rewrite Hc2, Hcd2. cbn [delay clock set_clock countdownStart].
    rewrite Hc1, Hcd1, u32_u32_add.
    replace (clock s + 10 + 10 * Z.of_nat (List.length pres))
      with (clock s + (10 + 10 * Z.of_nat (List.length pres))) by lia.
    rewrite u32_advance, Z.sub_diag. change (u32 0) with 0.
    rewrite Z.add_0_l, u32_small; unfold UINT32_MOD; lia. }
  split; [rewrite Hs2; exact Hs1|].
  destruct pres as [|y ys].
  - cbn in E2. injection E2 as <-. cbn. rewrite Hr1.
    destruct (recording s); reflexivity.
  - assert (Hb : u32 (millis (delay 10 s1) - countdownStart (delay 10 s1))
                 + 10 * Z.of_nat (S (List.length ys)) <= 5000).
    { rewrite He1. cbn [List.length] in Hlen.
      rewrite !Nat2Z.inj_succ in Hlen |- *. lia. }
    rewrite (flag_run fuel ys y (delay 10 s1) s2 Hrest Hd1 Hcd1' Hb E2).
    rewrite He1. cbn [recording delay set_clock]. rewrite Hr1.
    cbn [List.length]. rewrite Nat2Z.inj_succ.
    replace (Z.succ (Z.succ (Z.of_nat (List.length ys))) - 1)
      with (1 + Z.of_nat (List.length ys)) by lia.
    replace (10 * (1 + Z.of_nat (List.length ys)))
      with (10 + 10 * Z.of_nat (List.length ys)) by lia.
    reflexivity.
Qed.

Lemma presence_run_arms_witness :
  let s := onConnect (boot (UINT32_MOD - 2000)) in
  let pres := repeat onPad 450 in
  deviceConnected s = true
  /\ countdownStart s = 0 /\ clock s <> 0 /\ u32 (clock s) = clock s
  /\ pres <> []
  /\ Forall (fun x => stepsOn x = true) pres
  /\ 10 * (Z.of_nat (List.length pres) - 1) < 5000
  /\ exists s',
      run (map (Tick 0) pres) s = Some s'
      /\ notified s' = (notified s ++ [(clock s, "WEIGHT_DETECTED")])%list
      /\ countdownStart s' = clock s
      /\ u32 (millis s' - countdownStart s')
         = 10 * Z.of_nat (List.length pres)
      /\ series s' = series s
      /\ recording s'
         = (recording s
            || (4000 <=? 10 * (Z.of_nat (List.length pres) - 1)))%bool.
Proof.
  intros s pres.
  assert (Hc : deviceConnected s = true) by reflexivity.
  assert (Hcd : countdownStart s = 0) by reflexivity.
  assert (H0 : clock s <> 0) by (vm_compute; discriminate).
  assert (Hclk : u32 (clock s) = clock s) by (vm_compute; reflexivity).
  assert (Hne : pres <> []) by discriminate.
  assert (Hp : Forall (fun x => stepsOn x = true) pres).
  { apply Forall_forall. intros x Hin. apply repeat_spec in Hin.
    subst x. reflexivity. }
  assert (Hlen : 10 * (Z.of_nat (List.length pres) - 1) < 5000)
    by (vm_compute; reflexivity).
  repeat (split; [assumption|]).
  exact (presence_run_arms s 0%nat pres Hc Hcd H0 Hclk Hne Hp Hlen).
Defined.

(** X13. [countdownStart == 0] doubles as "no countdown", so a first
    presence on the millisecond [millis()] reads 0 does not start one:
    [WEIGHT_DETECTED] goes out, the machine stays in [IDLE], and the next
    tick with presence detects the weight a second time. *)
Theorem detection_at_clock_zero :
  forall (fuel : nat) (x y : Sample) (s : Session),
    deviceConnected s = true -> countdownStart s = 0 -> clock s = 0 ->
    stepsOn x = true -> stepsOn y = true ->
    (exists s1,
        loopBody fuel x s = Some s1
        /\ notified s1 = (notified s ++ [(0, "WEIGHT_DETECTED")])%list
        /\ phase s1 = IDLE)
    /\ exists s',
        run [Tick fuel x; Tick fuel y] s = Some s'
        /\ notified s'
           = (notified s
              ++ [(0, "WEIGHT_DETECTED"); (10, "WEIGHT_DETECTED")])%list
        /\ countdownStart s' = 10.
Proof.
  intros fuel x y s Hc Hcd H0 Hx Hy.
  destruct (loopBody_first_presence fuel x s Hc Hx Hcd)
    as (s1 & E1 & Hn1 & _ & Hcd1 & Hc1 & Hd1 & _).
  rewrite H0 in Hn1, Hcd1, Hc1.
  split.
  { exists s1. split; [exact E1|]. split; [exact Hn1|].
    apply phase_idle, Hcd1. }
  destruct (loopBody_first_presence fuel y (delay 10 s1) Hd1 Hy Hcd1)
    as (s2 & E2 & Hn2 & _ & Hcd2 & _).
  cbn [delay clock set_clock notified] in Hn2, Hcd2.
  rewrite Hc1 in Hn2, Hcd2. change (u32 (0 + 10)) with 10 in Hn2, Hcd2.
  exists (delay 10 s2). cbn [run act]. unfold loop. rewrite E1. cbn [bind].
  rewrite E2. cbn [bind].
  split; [reflexivity|]. split; [|exact Hcd2].
  cbn [delay notified set_clock]. rewrite Hn2, Hn1, <- app_assoc.
  reflexivity.
Qed.

Lemma detection_at_clock_zero_witness :
  let s := onConnect (boot 0) in
  deviceConnected s = true /\ countdownStart s = 0 /\ clock s = 0
  /\ stepsOn onPad = true
  /\ exists s',
      run [Tick 0 onPad; Tick 0 onPad] s = Some s'
      /\ notified s'
         = (notified s
            ++ [(0, "WEIGHT_DETECTED"); (10, "WEIGHT_DETECTED")])%list
      /\ countdownStart s' = 10.
Proof.
  intros s.
  repeat (split; [reflexivity|]).
  exact (proj2 (detection_at_clock_zero 0%nat onPad onPad s
                  eq_refl eq_refl eq_refl eq_refl eq_refl)).
Defined.

(** X14. A tick on which either scale has no new conversion does nothing
    but pass 10 ms, however far the countdown has run: nothing is sent, no
    flag or countdown changes and nothing is recorded. The 5000 ms boundary
    is only acted on by a tick that gets a sample from both scales. *)
Theorem stale_ticks_wait :
  forall (fuel : nat) (xs : list Sample) (s : Session),
    Forall (fun x => noSample x = true) xs ->
    exists s',
      run (map (Tick fuel) xs) s = Some s'
      /\ control s' = control s
      /\ series s' = series s
      /\ u32 (clock s') = u32 (clock s + 10 * Z.of_nat (List.length xs)).
Proof.
  intros fuel xs. induction xs as [|x xs IH]; intros s Hall.
  - exists s. cbn. rewrite Z.add_0_r. repeat split.
  - inversion Hall as [|? ? Hx Hrest]; subst.
    assert (Hstep : exists s1,
               loopBody fuel x s = Some s1
               /\ control s1 = control s /\ series s1 = series s
               /\ clock s1 = clock s).
    { unfold noSample in Hx. apply negb_true_iff in Hx.
      unfold loopBody, updateScales.
      destruct (deviceConnected s) eqn:Hc; [|eexists; repeat split].
      destruct (leadReady x); [|eexists; repeat split].
      destruct (trailReady x); [discriminate|].
      eexists. split; [reflexivity|]. unfold control. cbn.
      rewrite Hc. repeat split. }
    destruct Hstep as (s1 & E & Hk & Hs & Hc).
    destruct (IH (delay 10 s1) Hrest) as (s' & E' & Hk' & Hs' & Hc').
    exists s'. cbn [map run act]. unfold loop. rewrite E. cbn [bind].
    split; [exact E'|]. split; [rewrite Hk'; exact Hk|].
    split; [rewrite Hs'; exact Hs|].
    rewrite Hc'. cbn [delay clock set_clock]. rewrite Hc, u32_u32_add.
    cbn [List.length]. rewrite Nat2Z.inj_succ. f_equal. lia.
Qed.

Lemma stale_ticks_wait_witness :
  let s := after (onPadTicks 500) session6_3 in
  let stale := mkSample true (f32 1200 1) false (f32 1100 1) in
  5000 <= u32 (millis s - countdownStart s)
  /\ Forall (fun x => noSample x = true) [stale; stale; stale]
  /\ exists s',
      run (map (Tick 200) [stale; stale; stale]) s = Some s'
      /\ control s' = control s
      /\ series s' = series s
      /\ u32 (clock s')
         = u32 (clock s + 10 * Z.of_nat (List.length [stale; stale; stale])).
Proof.
  intros s stale.
  assert (Hl : Forall (fun x => noSample x = true) [stale; stale; stale])
    by (repeat constructor).
  split; [vm_compute; discriminate|split; [exact Hl|]].
  exact (stale_ticks_wait 200%nat [stale; stale; stale] s Hl).
Defined.

Lemma renderWith_groups_witness :
  let ts := [f32 125 10000; f32 25 1000] in
  let ls := [f32 1200 1; f32 12055 10] in
  let rs := [f32 1100 1; f32 11023 10] in
  ts <> [] /\ ls <> [] /\ rs <> []
  /\ renderWith String_of_float ts ls rs
     = (group (map (fun t => String_of_float t 4%nat) ts) ++ ";"
        ++ group (map (fun w => String_of_float w 1%nat) ls) ++ ";"
        ++ group (map (fun t => String_of_float t 4%nat) ts) ++ ";"
        ++ group (map (fun w => String_of_float w 1%nat) rs))%string.
Proof.
  intros ts ls rs.
  assert (Ht : ts <> []) by discriminate.
  assert (Hl : ls <> []) by discriminate.
  assert (Hr : rs <> []) by discriminate.
  split; [exact Ht|split; [exact Hl|split; [exact Hr|]]].
  apply (renderWith_groups String_of_float ts ls rs Ht Hl Hr).
  vm_compute. reflexivity.
Defined.

(** ** Recorded times *)

Lemma recordWhile_times (fuel : nat) (recordEnd : Z) :
  forall s s' : Session,
    recording s = true ->
    0 <= countdownStart s -> countdownStart s + 4000 <= clock s ->
    clock s < UINT32_MOD -> recordEnd + 12 <= UINT32_MOD ->
    recordWhile fuel recordEnd s = Some s' ->
    exists n : nat,
      times s'
      = (times s
         ++ map (fun k => secondsSince4s
                            (clock s - countdownStart s - 4000
                             + 12 * Z.of_nat k))
                (seq 0 n))%list.
Proof.
  induction fuel as [|fuel IH]; intros s s' Hrec Hcs Hel Hclk Hend;
    cbn [recordWhile]; destruct (millis s <? recordEnd) eqn:Et;
    try discriminate;
    try (intros [= <-]; exists 0%nat; cbn; now rewrite app_nil_r).
  apply Z.ltb_lt in Et. unfold millis in Et.
  rewrite sample_delay. cbn [bind]. intros H.
  assert (Hc2 : clock (delay 12 (recordData s)) = clock s + 12).
  { unfold recordData. rewrite Hrec. cbn. apply u32_small. lia. }
  assert (Hcd2 : countdownStart (delay 12 (recordData s)) = countdownStart s)
    by (unfold recordData; destruct (recording s); reflexivity).
  assert (Ht2 : times (delay 12 (recordData s))
                = (times s
                   ++ [secondsSince4s (clock s - countdownStart s - 4000)])%list).
  { unfold recordData. rewrite Hrec. cbn. unfold relativeTime, millis.
    rewrite (u32_small (clock s - countdownStart s)) by lia.
    rewrite u32_small by lia. reflexivity. }
  assert (Hr2 : recording (delay 12 (recordData s)) = true)
    by (unfold recordData; rewrite Hrec; cbn; exact Hrec).
  destruct (IH (delay 12 (recordData s)) s' Hr2) as (n & Hn); try exact H;
    rewrite ?Hc2, ?Hcd2; try lia.
  exists (S n). rewrite Hn, Ht2, Hc2, Hcd2, <- app_assoc. f_equal.
  cbn [seq map app]. rewrite Z.add_0_r. f_equal.
  rewrite <- seq_shift, map_map. apply map_ext. intros k.
  f_equal. lia.
Qed.

(** X15. The times the recording loop stores. With the countdown started
    at least 4000 ms ago and the clock away from its wrap, the k-th sample
    of the loop carries ((now - countdownStart - 4000) + 12 k) / 1000 s:
    the samples are 12 ms apart, not the 12.5 ms of [SAMPLE_INTERVAL], and
    the first one of a swing triggered at 5000 ms carries 1 s. *)
Theorem recorded_times :
  forall (fuel : nat) (recordEnd : Z) (s s' : Session),
    recording s = true ->
    0 <= countdownStart s -> countdownStart s + 4000 <= clock s ->
    clock s < UINT32_MOD -> recordEnd + 12 <= UINT32_MOD ->
    recordWhile fuel recordEnd s = Some s' ->
    exists n : nat,
      times s'
      = (times s
         ++ map (fun k => secondsSince4s
                            (clock s - countdownStart s - 4000
                             + 12 * Z.of_nat k))
                (seq 0 n))%list
      /\ List.length (leadWeights s')
         = (List.length (leadWeights s) + n)%nat.
Proof.
  intros fuel recordEnd s s' Hrec Hcs Hel Hclk Hend H.
  destruct (recordWhile_times fuel recordEnd s s' Hrec Hcs Hel Hclk Hend H)
    as (n & Hn).
  destruct (recordWhile_appends fuel recordEnd s s' Hrec H)
    as (ts & Ht & Hl & _).
  exists n. split; [exact Hn|].
  rewrite Hl, length_app, repeat_length. f_equal.
  rewrite Hn in Ht. apply app_inv_head in Ht. rewrite <- Ht.
  now rewrite length_map, length_seq.
Qed.

Lemma recorded_times_witness :
  let s := set_recording true
             (notify "START_SWING" (after (onPadTicks 500) session6_3)) in
  let s' := match recordWhile 200 10297 s with Some s' => s' | None => s end in
  recording s = true
  /\ 0 <= countdownStart s /\ countdownStart s + 4000 <= clock s
  /\ clock s < UINT32_MOD /\ 10297 + 12 <= UINT32_MOD
  /\ recordWhile 200 10297 s = Some s'
  /\ secondsSince4s (clock s - countdownStart s - 4000) = f32 1 1
  /\ exists n : nat,
      times s'
      = (times s
         ++ map (fun k => secondsSince4s
                            (clock s - countdownStart s - 4000
                             + 12 * Z.of_nat k))
                (seq 0 n))%list
      /\ List.length (leadWeights s')
         = (List.length (leadWeights s) + n)%nat.
Proof.
  intros s s'.
  assert (Hr : recording s = true) by reflexivity.
  assert (H0 : 0 <= countdownStart s) by (vm_compute; discriminate).
  assert (H4 : countdownStart s + 4000 <= clock s)
    by (vm_compute; discriminate).
  assert (Hc : clock s < UINT32_MOD) by (vm_compute; reflexivity).
  assert (He : 10297 + 12 <= UINT32_MOD) by (vm_compute; discriminate).
  assert (H : recordWhile 200 10297 s = Some s') by (vm_compute; reflexivity).
  repeat (split; [assumption|]).
  split; [vm_compute; reflexivity|].
  exact (recorded_times 200%nat 10297 s s' Hr H0 H4 Hc He H).
Defined.

(** ** Cycles *)



(** X17. The threshold is exclusive and a reading that is not a number is
    no presence. While a countdown runs, a sample whose lead or trail
    reading is exactly [WEIGHT_THRESHOLD], or NaN, is a step-off, whatever
    the other scale reads. *)
Theorem threshold_is_exclusive :
  forall (fuel : nat) (w v : F32.t) (s : Session),
    deviceConnected s = true -> countdownStart s <> 0 ->
    v = WEIGHT_THRESHOLD \/ v = S754_nan ->
    (exists s',
        loopBody fuel (mkSample true v true w) s = Some s'
        /\ notified s' = (notified s ++ [(millis s, "STEPPED_OFF")])%list
        /\ phase s' = IDLE)
    /\ (exists s',
           loopBody fuel (mkSample true w true v) s = Some s'
           /\ notified s' = (notified s ++ [(millis s, "STEPPED_OFF")])%list
           /\ phase s' = IDLE).
Proof.
  intros fuel w v s Hc Hcd Hv.
  assert (Hgt : F32.gt v WEIGHT_THRESHOLD = false)
    by (destruct Hv as [-> | ->]; reflexivity).
  assert (H1 : stepsOff (mkSample true v true w) = true).
  { unfold stepsOff, presence.
    cbn [leadReady trailReady leadNew trailNew]. now rewrite Hgt. }
  assert (H2 : stepsOff (mkSample true w true v) = true).
  { unfold stepsOff, presence.
    cbn [leadReady trailReady leadNew trailNew].
    now rewrite Hgt, andb_false_r. }
  split.
  - destruct (loopBody_stepOff fuel _ s Hc H1 Hcd)
      as (s' & E & Hn & _ & _ & _ & Hz & _).
    exists s'. repeat split; auto. apply phase_idle, Hz.
  - destruct (loopBody_stepOff fuel _ s Hc H2 Hcd)
      as (s' & E & Hn & _ & _ & _ & Hz & _).
    exists s'. repeat split; auto. apply phase_idle, Hz.
Qed.

Lemma threshold_is_exclusive_witness :
  let s := after (onPadTicks 100) session6_3 in
  deviceConnected s = true /\ countdownStart s <> 0
  /\ exists s',
      loopBody 0 (mkSample true WEIGHT_THRESHOLD true (f32 5000 1)) s
      = Some s'
      /\ notified s' = (notified s ++ [(millis s, "STEPPED_OFF")])%list
      /\ phase s' = IDLE.
Proof.
  intros s.
  assert (Hc : deviceConnected s = true) by (vm_compute; reflexivity).
  assert (Hcd : countdownStart s <> 0) by (vm_compute; discriminate).
  split; [exact Hc|split; [exact Hcd|]].
  exact (proj1 (threshold_is_exclusive 0%nat (f32 5000 1) WEIGHT_THRESHOLD s
                  Hc Hcd (or_introl eq_refl))).
Defined.
